(** * hOCR transcoding of Google Cloud Vision responses (ocr_plugin.py)

    A shallow embedding of [src/ocr_plugin.py]: the bounding-box and
    confidence helpers, the page-to-hOCR transcoder [_generate_hocr] and
    the engine entry point [generate_hocr], followed by the properties
    the specification states about them.

    Conventions of the embedding.
    - A Python [str] is a list of Unicode code points ([pystr]); this is
      what [str.strip], [str.replace] and [str.join] operate on.
    - A JSON object read with [d.get(key, default)] is a record whose
      fields are [option]s: [None] is an absent key.
    - Python integers are unbounded: [Z] for coordinates, [nat] for the
      four id counters, which only ever count up from 0.
    - Python floats are IEEE 754 binary64: Rocq's primitive [float],
      reached through the interface [PyFloat] of the operations the
      plugin uses, so that what does not depend on rounding is stated
      for every arithmetic.
    - [generate_hocr] runs in a state-and-exception monad over a [world]
      holding the environment, the file system and the remote service. *)

From Stdlib Require Import ZArith NArith List Ascii String Lia.
From Stdlib Require Import DecimalString DecimalPos.
From Stdlib Require Import Uint63 Floats.PrimFloat Floats.SpecFloat Floats.FloatOps.
From stdpp Require Import base option list gmap strings.

Import ListNotations.
Open Scope Z_scope.

(** ** Python strings *)

Module PyStr.

(** One Unicode code point. *)
Definition char : Type := N.
Definition pystr : Type := list char.

Definition of_string (s : string) : pystr :=
  List.map N_of_ascii (list_ascii_of_string s).

Definition dquote : char := 34%N.
Definition squote : char := 39%N.

(** The source's literals are full of double quotes; [lit] reads a
    literal written with single quotes in their place (no literal of
    the source contains a single quote). *)
Definition lit (s : string) : pystr :=
  List.map (fun c => if N.eqb c squote then dquote else c) (of_string s).

(** [str(n)] and [f"{n}"] for an [int]. *)
Definition str_of_Z (z : Z) : pystr :=
  of_string (NilZero.string_of_int (Z.to_int z)).

Definition str_of_nat (n : nat) : pystr := str_of_Z (Z.of_nat n).

(** [sep.join(parts)]. *)
Fixpoint join (sep : pystr) (parts : list pystr) : pystr :=
  match parts with
  | [] => []
  | [p] => p
  | p :: rest => p ++ sep ++ join sep rest
  end.

(** [s.replace(old, new)] for a one-character [old], as every call in
    the source is: each occurrence of [old], left to right, becomes
    [new]; the inserted text is not scanned again. *)
Fixpoint replace (old : char) (new : pystr) (s : pystr) : pystr :=
  match s with
  | [] => []
  | c :: s' => (if N.eqb c old then new else [c]) ++ replace old new s'
  end.

(** [str.isspace] on one code point: CPython's [_PyUnicode_IsWhitespace]. *)
Definition is_space (c : char) : bool :=
  ((9 <=? c) && (c <=? 13) || (28 <=? c) && (c <=? 32)
   || (c =? 133) || (c =? 160) || (c =? 5760)
   || (8192 <=? c) && (c <=? 8202)
   || (c =? 8232) || (c =? 8233) || (c =? 8239) || (c =? 8287)
   || (c =? 12288))%N.

Fixpoint lstrip (s : pystr) : pystr :=
  match s with
  | [] => []
  | c :: s' => if is_space c then lstrip s' else s
  end.

Definition rstrip (s : pystr) : pystr := rev (lstrip (rev s)).

(** [s.strip()]. *)
Definition strip (s : pystr) : pystr := rstrip (lstrip s).

(** Truthiness of a [str]: [not s] holds exactly for the empty one. *)
Definition is_empty (s : pystr) : bool :=
  match s with [] => true | _ => false end.

End PyStr.
Import PyStr.

(** ** Bounding boxes *)

(** A corner point [{"x": .., "y": ..}]; either key may be absent. *)
Record Vertex := mkVertex { vx : option Z; vy : option Z }.

(** A [boundingBox] object. *)
Record BoundingBox := mkBox { vertices : option (list Vertex) }.

(** The [{}] that [node.get("boundingBox", {})] falls back to. *)
Definition empty_box : BoundingBox := mkBox None.

Definition sp : pystr := lit " ".

(** [_get_bbox], lines 175-186. *)
Definition _get_bbox (bounding_box : BoundingBox) : pystr :=
  let vs := default [] (vertices bounding_box) in
  if (length vs <? 4)%nat then lit "0 0 0 0"
  else
    match vs !! 0%nat, vs !! 2%nat with
    | Some v0, Some v2 =>
        let x1 := Z.max (default 0 (vx v0)) 0 in
        let y1 := Z.max (default 0 (vy v0)) 0 in
        let x2 := Z.max (default 0 (vx v2)) 0 in
        let y2 := Z.max (default 0 (vy v2)) 0 in
        str_of_Z x1 ++ sp ++ str_of_Z y1 ++ sp ++ str_of_Z x2 ++ sp ++ str_of_Z y2
    | _, _ => lit "0 0 0 0" (* unreachable: the list has four elements *)
    end.

Definition pt (x y : Z) : Vertex := mkVertex (Some x) (Some y).

(** ** Exceptions *)

(** The two messages [generate_hocr] raises a [RuntimeError] with. *)
Inductive runtime_msg :=
| MissingApiKey                   (* line 45 *)
| VisionApiError (message : pystr) (* line 72, carrying the service's text *).

Inductive exn :=
| RuntimeError (msg : runtime_msg)
| OSError                 (* [open] on a missing input file *)
| RequestException        (* [requests.post] could not complete *)
| HTTPError (status : Z)  (* [raise_for_status] *)
| JSONDecodeError         (* [response.json()] on a body that is not JSON *)
| IndexError              (* [list[0]] on an empty list *)
| OverflowError           (* [int(inf)] *)
| ValueError              (* [int(nan)] *).

(** A computation that returns or raises. *)
Inductive result (A : Type) :=
| Ok (a : A)
| Raise (e : exn).
Arguments Ok {A} a.
Arguments Raise {A} e.

Definition bind {A B} (r : result A) (k : A -> result B) : result B :=
  match r with
  | Ok a => k a
  | Raise e => Raise e
  end.

Notation "x <- r ;; k" := (bind r (fun x => k))
  (at level 100, r at next level, right associativity).

(** A [for] loop whose body may raise: the state is threaded through the
    iterations, and the first exception ends the loop. *)
Fixpoint for_each {A S} (xs : list A) (body : S -> A -> result S) (st : S)
  : result S :=
  match xs with
  | [] => Ok st
  | x :: xs' => st' <- body st x ;; for_each xs' body st'
  end.

(** ** Float arithmetic *)

(** The operations on [float] that the plugin uses. *)
Class PyFloat (F : Type) := {
  of_count : N -> F;         (* conversion of a non-negative [int] *)
  lit_0_9  : F;              (* the literal [0.9] *)
  fadd     : F -> F -> F;
  fdiv     : F -> F -> F;
  fmul     : F -> F -> F;
  fle      : F -> F -> bool; (* [<=] *)
  to_int   : F -> result Z   (* [int(x)]: truncation toward zero *)
}.

Local Set Warnings "-inexact-float".

(** [int(x)] on a binary64 value [(-1)^s * m * 2^e]. *)
Definition float_to_int (x : float) : result Z :=
  match Prim2SF x with
  | S754_zero _ => Ok 0
  | S754_finite s m e =>
      let v := Z.shiftl (Z.pos m) e in Ok (if s then - v else v)
  | S754_infinity _ => Raise OverflowError
  | S754_nan => Raise ValueError
  end.

(** CPython's floats. [of_count] is exact below [2^53] and correctly
    rounded below [2^63], far beyond the length of any list. *)
#[export] Instance binary64 : PyFloat float := {
  of_count n := PrimFloat.of_uint63 (Uint63.of_Z (Z.of_N n));
  lit_0_9 := 0.9%float;
  fadd := PrimFloat.add;
  fdiv := PrimFloat.div;
  fmul := PrimFloat.mul;
  fle := PrimFloat.leb;
  to_int := float_to_int
}.

(** ** The detection response *)

Section Transcoder.

Context {F : Type} {ops : PyFloat F}.

Record Symbol := mkSymbol {
  sym_text : option pystr;
  sym_confidence : option F
}.

Record Word := mkWord {
  word_box : option BoundingBox;
  word_symbols : option (list Symbol)
}.

Record Paragraph := mkParagraph {
  par_box : option BoundingBox;
  par_words : option (list Word)
}.

Record Block := mkBlock {
  block_box : option BoundingBox;
  block_paragraphs : option (list Paragraph)
}.

Record Page := mkPage {
  page_width : option Z;
  page_height : option Z;
  page_blocks : option (list Block)
}.

(** [sum(xs)] as CPython computes it up to version 3.11: left-to-right
    addition starting from the integer 0.  (From 3.12 on [sum]
    compensates the rounding errors of floats, which can change the last
    bit of the result; no statement below depends on the rounding.) *)
Definition py_sum (xs : list F) : F := fold_left fadd xs (of_count 0).

(** [_get_confidence], lines 189-197. *)
Definition _get_confidence (word : Word) : result Z :=
  let symbols := default [] (word_symbols word) in
  match symbols with
  | [] => Ok 90
  | _ =>
      let confidences := List.map (fun s => default lit_0_9 (sym_confidence s)) symbols in
      let avg := fdiv (py_sum confidences) (of_count (N.of_nat (length confidences))) in
      to_int (fmul avg (of_count 100))
  end.

(** *** The emitted markup

    Every line that [_generate_hocr] appends inside the page container
    is one of seven f-strings; [node] names them and [render] is their
    text. *)

Inductive node :=
| NCarea (id : nat) (bbox : pystr)                        (* line 124 *)
| NPar (id : nat) (bbox : pystr)                          (* line 131 *)
| NLine (id : nat) (bbox : pystr)                         (* line 137 *)
| NWord (id : nat) (bbox : pystr) (conf : Z) (text : pystr) (* lines 160-161 *)
| NEndLine                                                (* line 164 *)
| NEndPar                                                 (* line 165 *)
| NEndCarea                                               (* line 166 *).

Definition render (n : node) : pystr :=
  match n with
  | NCarea block_id block_bbox =>
      lit "    <div class='ocr_carea' id='block_" ++ str_of_nat block_id
      ++ lit "' title='bbox " ++ block_bbox ++ lit "'>"
  | NPar par_id par_bbox =>
      lit "      <p class='ocr_par' id='par_" ++ str_of_nat par_id
      ++ lit "' title='bbox " ++ par_bbox ++ lit "'>"
  | NLine line_id par_bbox =>
      lit "        <span class='ocr_line' id='line_" ++ str_of_nat line_id
      ++ lit "' title='bbox " ++ par_bbox ++ lit "'>"
  | NWord word_id word_bbox conf word_text =>
      lit "          <span class='ocrx_word' id='word_" ++ str_of_nat word_id
      ++ lit "' title='bbox " ++ word_bbox ++ lit "; x_wconf " ++ str_of_Z conf
      ++ lit "'>" ++ word_text ++ lit "</span>"
  | NEndLine => lit "        </span>"
  | NEndPar => lit "      </p>"
  | NEndCarea => lit "    </div>"
  end.

(** Lines 102-113. *)
Definition header (width height : Z) : list pystr :=
  [ lit "<?xml version='1.0' encoding='UTF-8'?>";
    lit "<!DOCTYPE html PUBLIC '-//W3C//DTD XHTML 1.0 Transitional//EN'";
    lit "  'http://www.w3.org/TR/xhtml1/DTD/xhtml1-transitional.dtd'>";
    lit "<html xmlns='http://www.w3.org/1999/xhtml' xml:lang='ko' lang='ko'>";
    lit "<head>";
    lit "  <title>Google Vision OCR</title>";
    lit "  <meta http-equiv='Content-Type' content='text/html; charset=utf-8' />";
    lit "</head>";
    lit "<body>";
    lit "  <div class='ocr_page' id='page_1' title='bbox 0 0 " ++ str_of_Z width
      ++ sp ++ str_of_Z height ++ lit "; ppageno 0'>" ].

(** Lines 168-170. *)
Definition footer : list pystr :=
  [ lit "  </div>"; lit "</body>"; lit "</html>" ].

(** Lines 150-155: the four replacements, in the source's order. *)
Definition html_escape (word_text : pystr) : pystr :=
  replace dquote (lit "&quot;")
    (replace 62%N (lit "&gt;")
      (replace 60%N (lit "&lt;")
        (replace 38%N (lit "&amp;") word_text))).

(** *** The traversal *)

(** The local variables of [_generate_hocr]. *)
Record state := mkState {
  lines : list pystr;
  word_id : nat;
  block_id : nat;
  par_id : nat;
  line_id : nat
}.

(** [lines.append(...)]. *)
Definition append (n : node) (st : state) : state :=
  mkState (lines st ++ [render n]) (word_id st) (block_id st) (par_id st) (line_id st).

Definition incr_word (st : state) : state :=
  mkState (lines st) (S (word_id st)) (block_id st) (par_id st) (line_id st).
Definition incr_block (st : state) : state :=
  mkState (lines st) (word_id st) (S (block_id st)) (par_id st) (line_id st).
Definition incr_par (st : state) : state :=
  mkState (lines st) (word_id st) (block_id st) (S (par_id st)) (line_id st).
Definition incr_line (st : state) : state :=
  mkState (lines st) (word_id st) (block_id st) (par_id st) (S (line_id st)).

(** Lines 142-144: the word's text, its symbols' texts concatenated. *)
Definition word_text_of (word : Word) : pystr :=
  concat (List.map (fun symbol => default [] (sym_text symbol))
                   (default [] (word_symbols word))).

(** Lines 141-162: the body of the loop over words. *)
Definition word_body (st : state) (word : Word) : result state :=
  let word_bbox := _get_bbox (default empty_box (word_box word)) in
  let word_text := word_text_of word in
  if is_empty (strip word_text) then Ok st (* continue *)
  else
    let word_text := html_escape word_text in
    let st := incr_word st in
    conf <- _get_confidence word ;;
    Ok (append (NWord (word_id st) word_bbox conf word_text) st).

(** Lines 128-165: the body of the loop over paragraphs. *)
Definition paragraph_body (st : state) (paragraph : Paragraph) : result state :=
  let par_bbox := _get_bbox (default empty_box (par_box paragraph)) in
  let st := incr_par st in
  let st := append (NPar (par_id st) par_bbox) st in
  let st := incr_line st in
  let st := append (NLine (line_id st) par_bbox) st in
  st <- for_each (default [] (par_words paragraph)) word_body st ;;
  let st := append NEndLine st in
  Ok (append NEndPar st).

(** Lines 121-166: the body of the loop over blocks. *)
Definition block_body (st : state) (block : Block) : result state :=
  let block_bbox := _get_bbox (default empty_box (block_box block)) in
  let st := incr_block st in
  let st := append (NCarea (block_id st) block_bbox) st in
  st <- for_each (default [] (block_paragraphs block)) paragraph_body st ;;
  Ok (append NEndCarea st).

Definition newline : pystr := [10%N].

(** The list [lines] at the [return] of [_generate_hocr]. *)
Definition hocr_lines (page : Page) (width height : Z) : result (list pystr) :=
  let st := mkState (header width height) 0 0 0 0 in
  st <- for_each (default [] (page_blocks page)) block_body st ;;
  Ok (lines st ++ footer).

(** [_generate_hocr], lines 100-172. *)
Definition _generate_hocr (page : Page) (width height : Z) : result pystr :=
  ls <- hocr_lines page width height ;;
  Ok (join newline ls).

End Transcoder.

Arguments Symbol : clear implicits.
Arguments Word : clear implicits.
Arguments Paragraph : clear implicits.
Arguments Block : clear implicits.
Arguments Page : clear implicits.

(** ** The engine entry point *)

(** [base64.b64encode]. *)
Module Base64.

Definition alphabet : pystr :=
  of_string "ABCDEFGHIJKLMNOPQRSTUVWXYZabcdefghijklmnopqrstuvwxyz0123456789+/".

Definition digit (i : N) : char := nth (N.to_nat i) alphabet 0%N.

Definition pad : char := 61%N.

Fixpoint encode (bytes : list N) : pystr :=
  match bytes with
  | [] => []
  | [a] =>
      [digit (a / 4); digit ((a mod 4) * 16); pad; pad]%N
  | [a; b] =>
      [digit (a / 4); digit ((a mod 4) * 16 + b / 16);
       digit ((b mod 16) * 4); pad]%N
  | a :: b :: c :: rest =>
      [digit (a / 4); digit ((a mod 4) * 16 + b / 16);
       digit ((b mod 16) * 4 + c / 64); digit (c mod 64)]%N ++ encode rest
  end.

End Base64.

Section Engine.

Context {F : Type} {ops : PyFloat F}.

(** *** The service's reply *)

Record ErrorObject := mkError { err_message : option pystr }.

Record FullTextAnnotation := mkFullText {
  fta_pages : option (list (Page F));
  fta_text : option pystr
}.

(** One entry of ["responses"]. *)
Record Annotation := mkAnnotation {
  ann_error : option ErrorObject;
  ann_fullTextAnnotation : option FullTextAnnotation
}.

(** The body of the reply. *)
Record ApiResult := mkResult { responses : option (list Annotation) }.

(** The [{}] defaults of lines 67 and 74. *)
Definition empty_annotation : Annotation := mkAnnotation None None.
Definition empty_full_text : FullTextAnnotation := mkFullText None None.

(** The one request the plugin sends: its URL and the [content] of its
    single image; features and language hints are constants. *)
Record request := mkRequest { req_url : pystr; req_content : pystr }.

Inductive http_reply :=
| NoReply                                   (* no response: [requests.post] raises *)
| Reply (status : Z) (body : option ApiResult) (* [None]: the body is not JSON *).

(** *** The world *)

(** What [generate_hocr] reads and changes. A file is its content: the
    bytes of the input image, the text of an output file. [write_text]
    is taken to succeed. *)
Record world := mkWorld {
  environ : gmap string pystr;
  files : gmap string (list N);
  service : request -> http_reply;
  sent : list request              (* the requests posted so far *)
}.

Definition M (A : Type) : Type := world -> world * result A.

Definition ret {A} (a : A) : M A := fun w => (w, Ok a).
Definition raise {A} (e : exn) : M A := fun w => (w, Raise e).
Definition lift {A} (r : result A) : M A := fun w => (w, r).

Definition bindM {A B} (c : M A) (k : A -> M B) : M B :=
  fun w =>
    match c w with
    | (w', Ok a) => k a w'
    | (w', Raise e) => (w', Raise e)
    end.

Notation "x <<- c ;; k" := (bindM c (fun x => k))
  (at level 100, c at next level, right associativity).
Notation "c ;;; k" := (bindM c (fun _ => k))
  (at level 100, right associativity).

(** [os.environ.get(name)]. *)
Definition getenv (name : string) : M (option pystr) :=
  fun w => (w, Ok (environ w !! name)).

(** [open(path, "rb")] and [f.read()]. *)
Definition read_bytes (path : string) : M (list N) :=
  fun w =>
    match files w !! path with
    | Some bytes => (w, Ok bytes)
    | None => (w, Raise OSError)
    end.

(** [Path(path).write_text(text, encoding="utf-8")]. *)
Definition write_text (path : string) (text : pystr) : M unit :=
  fun w =>
    (mkWorld (environ w) (<[path := text]> (files w)) (service w) (sent w), Ok tt).

(** [requests.post(url, json=..., timeout=120)]. *)
Definition post (req : request) : M (Z * option ApiResult) :=
  fun w =>
    let w' := mkWorld (environ w) (files w) (service w) (sent w ++ [req]) in
    match service w req with
    | NoReply => (w', Raise RequestException)
    | Reply status body => (w', Ok (status, body))
    end.

(** [response.raise_for_status()]. *)
Definition raise_for_status (status : Z) : M unit :=
  if (400 <=? status) && (status <? 600) then raise (HTTPError status) else ret tt.

(** [response.json()]. *)
Definition json (body : option ApiResult) : M ApiResult :=
  match body with
  | Some r => ret r
  | None => raise JSONDecodeError
  end.

(** [xs[0]]. *)
Definition first {A} (xs : list A) : M A :=
  match xs with
  | x :: _ => ret x
  | [] => raise IndexError
  end.

(** [_write_empty_hocr], lines 200-211. *)
Definition empty_hocr : pystr :=
  lit "<?xml version='1.0' encoding='UTF-8'?>" ++ newline
  ++ lit "<!DOCTYPE html PUBLIC '-//W3C//DTD XHTML 1.0 Transitional//EN'" ++ newline
  ++ lit "  'http://www.w3.org/TR/xhtml1/DTD/xhtml1-transitional.dtd'>" ++ newline
  ++ lit "<html xmlns='http://www.w3.org/1999/xhtml'>" ++ newline
  ++ lit "<head><title>Empty</title></head>" ++ newline
  ++ lit "<body><div class='ocr_page' title='bbox 0 0 1 1'></div></body>" ++ newline
  ++ lit "</html>".

Definition _write_empty_hocr (output_path : string) : M unit :=
  write_text output_path empty_hocr.

Definition api_key_var : string := "GOOGLE_VISION_API_KEY".

Definition endpoint : pystr :=
  lit "https://vision.googleapis.com/v1/images:annotate?key=".

(** [generate_hocr], lines 42-93 ([options] is not used). *)
Definition generate_hocr (input_file output_hocr output_text : string) : M unit :=
  api_key <<- getenv api_key_var ;;
  match api_key with
  | None => raise (RuntimeError MissingApiKey)
  | Some api_key =>
      if is_empty api_key then raise (RuntimeError MissingApiKey)
      else
        bytes <<- read_bytes input_file ;;
        let image_content := Base64.encode bytes in
        let url := endpoint ++ api_key in
        response <<- post (mkRequest url image_content) ;;
        raise_for_status (fst response) ;;;
        result <<- json (snd response) ;;
        annotation <<- first (default [empty_annotation] (responses result)) ;;
        match ann_error annotation with
        | Some error =>
            let error_msg := default (lit "Unknown error") (err_message error) in
            raise (RuntimeError (VisionApiError error_msg))
        | None =>
            let full_text_annotation :=
              default empty_full_text (ann_fullTextAnnotation annotation) in
            let pages := default [] (fta_pages full_text_annotation) in
            match pages with
            | [] =>
                _write_empty_hocr output_hocr ;;;
                write_text output_text []
            | page :: _ =>
                let width := default 1 (page_width page) in
                let height := default 1 (page_height page) in
                let text := default [] (fta_text full_text_annotation) in
                write_text output_text text ;;;
                hocr <<- lift (_generate_hocr page width height) ;;
                write_text output_hocr hocr
            end
        end
  end.

End Engine.

Arguments FullTextAnnotation : clear implicits.
Arguments Annotation : clear implicits.
Arguments ApiResult : clear implicits.
Arguments http_reply : clear implicits.
Arguments world : clear implicits.
Arguments M : clear implicits.

Notation "x <<- c ;; k" := (bindM c (fun x => k))
  (at level 100, c at next level, right associativity).
Notation "c ;;; k" := (bindM c (fun _ => k))
  (at level 100, right associativity).

(** ** The engine's fixed answers *)

Module Adapter.

(** [__str__] and [creator_tag], lines 21-27. *)
Definition __str__ : pystr := of_string "Google Cloud Vision API".
Definition creator_tag {O} (options : O) : pystr := of_string "Google Cloud Vision API".

(** [version], lines 29-31. *)
Definition version : pystr := of_string "1.0.0".

(** [languages], lines 33-35: a set of five codes. *)
Definition languages {O} (options : O) : gset string :=
  {[ "eng"; "kor"; "jpn"; "chi_sim"; "chi_tra" ]}%string.

(** [OrientationConfidence], line 15, and [get_orientation], lines 37-39. *)
Record OrientationConfidence := mkOrientation { angle : Z; confidence : float }.
Definition get_orientation {O} (input_file : string) (options : O)
  : OrientationConfidence :=
  mkOrientation 0 0%float.

(** [generate_pdf], lines 95-97: it raises, whatever it is given. *)
Inductive unsupported := NotImplementedError.
Definition generate_pdf {F O} (input_file output_pdf output_text : string)
           (options : O) (w : world F) : world F * (unsupported + unit) :=
  (w, inl NotImplementedError).

End Adapter.

(** * The vocabulary of the specification

    The notions the statements below are written in: none of them is
    part of the plugin. *)

(** ** Texts of digits, coordinates, escaped characters *)

(** A decimal digit. *)
Definition is_digit (c : char) : Prop := (48 <= c <= 57)%N.

(** A coordinate as the specification words it: 0 when the key is
    missing, and never below 0. *)
Definition coordinate (c : option Z) : Z :=
  match c with
  | None => 0
  | Some z => if z <? 0 then 0 else z
  end.

(** The text [x1 y1 x2 y2]. *)
Definition box_text (x1 y1 x2 y2 : Z) : pystr :=
  str_of_Z x1 ++ sp ++ str_of_Z y1 ++ sp ++ str_of_Z x2 ++ sp ++ str_of_Z y2.

Definition digit_or_space (c : char) : Prop := c = 32%N \/ is_digit c.

(** What one character of a word becomes in the markup. *)
Definition escape_char (c : char) : pystr :=
  if (c =? 38)%N then lit "&amp;"
  else if (c =? 60)%N then lit "&lt;"
  else if (c =? 62)%N then lit "&gt;"
  else if (c =? 34)%N then lit "&quot;"
  else [c].

Definition reserved (c : char) : Prop :=
  c = 38%N \/ c = 60%N \/ c = 62%N \/ c = 34%N.

(** Undoing the escape: an entity at the head becomes its character. *)
Fixpoint unescape_fuel (fuel : nat) (s : pystr) : pystr :=
  match fuel with
  | O => []
  | S fuel' =>
      match s with
      | [] => []
      | 38%N :: 97%N :: 109%N :: 112%N :: 59%N :: s' => 38%N :: unescape_fuel fuel' s'
      | 38%N :: 108%N :: 116%N :: 59%N :: s' => 60%N :: unescape_fuel fuel' s'
      | 38%N :: 103%N :: 116%N :: 59%N :: s' => 62%N :: unescape_fuel fuel' s'
      | 38%N :: 113%N :: 117%N :: 111%N :: 116%N :: 59%N :: s' =>
          34%N :: unescape_fuel fuel' s'
      | c :: s' => c :: unescape_fuel fuel' s'
      end
  end.

Definition unescape (s : pystr) : pystr := unescape_fuel (length s) s.

(** ** The structure of a page *)

Section PageVocabulary.

Context {F : Type} {ops : PyFloat F}.

(** Whether the guard of line 146 lets the word through. *)
Definition visible (word : Word F) : bool :=
  negb (is_empty (strip (word_text_of word))).

Definition words_of (paragraph : Paragraph F) : list (Word F) :=
  default [] (par_words paragraph).
Definition paragraphs_of (block : Block F) : list (Paragraph F) :=
  default [] (block_paragraphs block).
Definition blocks_of (page : Page F) : list (Block F) :=
  default [] (page_blocks page).

Definition block_words (block : Block F) : list (Word F) :=
  flat_map words_of (paragraphs_of block).
Definition page_words (page : Page F) : list (Word F) :=
  flat_map block_words (blocks_of page).

(** The words of a list that get a leaf. *)
Definition visible_words (ws : list (Word F)) : list (Word F) :=
  List.filter visible ws.

(** Every word that gets a leaf has a confidence: [int(...)] does not
    raise on it. *)
Definition confident (ws : list (Word F)) : Prop :=
  forall word, In word ws -> visible word = true ->
               exists conf, _get_confidence word = Ok conf.

Definition conf_of (word : Word F) : Z :=
  match _get_confidence word with
  | Ok conf => conf
  | Raise _ => 0
  end.

(** *** The nodes, without their ids *)






(** *** The ids, per category, in the order of the document *)



(** *** The nodes a loop appends, given the counters it starts from *)

Fixpoint word_nodes (wk : nat) (ws : list (Word F)) : list node :=
  match ws with
  | [] => []
  | word :: ws' =>
      if visible word
      then NWord (S wk) (_get_bbox (default empty_box (word_box word)))
                 (conf_of word) (html_escape (word_text_of word))
             :: word_nodes (S wk) ws'
      else word_nodes wk ws'
  end.

Fixpoint paragraph_nodes (pk lk wk : nat) (ps : list (Paragraph F)) : list node :=
  match ps with
  | [] => []
  | paragraph :: ps' =>
      let par_bbox := _get_bbox (default empty_box (par_box paragraph)) in
      let ws := words_of paragraph in
      (NPar (S pk) par_bbox :: NLine (S lk) par_bbox
         :: word_nodes wk ws ++ [NEndLine; NEndPar])
      ++ paragraph_nodes (S pk) (S lk) (wk + length (visible_words ws)) ps'
  end.

Fixpoint block_nodes (bk pk lk wk : nat) (bs : list (Block F)) : list node :=
  match bs with
  | [] => []
  | block :: bs' =>
      let ps := paragraphs_of block in
      (NCarea (S bk) (_get_bbox (default empty_box (block_box block)))
         :: paragraph_nodes pk lk wk ps ++ [NEndCarea])
      ++ block_nodes (S bk) (pk + length ps) (lk + length ps)
                     (wk + length (visible_words (block_words block))) bs'
  end.

End PageVocabulary.

(** ** Reading a page container back from markup *)

Module Markup.

Fixpoint is_prefix (pat s : pystr) : bool :=
  match pat, s with
  | [], _ => true
  | p :: pat', c :: s' => (p =? c)%N && is_prefix pat' s'
  | _ :: _, [] => false
  end.

(** The text after the first occurrence of [pat]. *)
Fixpoint after (pat s : pystr) : option pystr :=
  if is_prefix pat s then Some (skipn (length pat) s)
  else match s with
       | [] => None
       | _ :: s' => after pat s'
       end.

(** How many times [pat] occurs. *)
Fixpoint occurrences (pat s : pystr) : nat :=
  match s with
  | [] => 0
  | _ :: s' => (if is_prefix pat s then 1 else 0) + occurrences pat s'
  end%nat.

(** A run of decimal digits, most significant first. *)
Fixpoint read_digits (acc : Z) (s : pystr) : Z * pystr :=
  match s with
  | c :: s' =>
      if ((48 <=? c) && (c <=? 57))%N
      then read_digits (10 * acc + Z.of_N (c - 48)) s'
      else (acc, s)
  | [] => (acc, s)
  end.

Definition read_number (s : pystr) : option (Z * pystr) :=
  match s with
  | c :: _ => if ((48 <=? c) && (c <=? 57))%N then Some (read_digits 0 s) else None
  | [] => None
  end.

Definition read_space (s : pystr) : option pystr :=
  match s with
  | 32%N :: s' => Some s'
  | _ => None
  end.

(** The box [x1 y1 x2 y2] in the [title] of the page container. *)
Definition page_box (doc : pystr) : option (Z * Z * Z * Z) :=
  s ← after (lit "class='ocr_page'") doc;
  s ← after (lit "title='bbox ") s;
  '(x1, s) ← read_number s; s ← read_space s;
  '(y1, s) ← read_number s; s ← read_space s;
  '(x2, s) ← read_number s; s ← read_space s;
  '(y2, _) ← read_number s;
  Some (x1, y1, x2, y2).

Definition box_width (b : Z * Z * Z * Z) : Z :=
  let '(x1, _, x2, _) := b in x2 - x1.
Definition box_height (b : Z * Z * Z * Z) : Z :=
  let '(_, y1, _, y2) := b in y2 - y1.

(** A box that covers no area. *)
Definition zero_sized (b : Z * Z * Z * Z) : Prop :=
  box_width b = 0 \/ box_height b = 0.

End Markup.

(** ** Runs of the entry point *)

Section EngineVocabulary.

Context {F : Type} {ops : PyFloat F}.

(** The request that [generate_hocr] posts for a key and an image. *)
Definition the_request (api_key : pystr) (bytes : list N) : request :=
  mkRequest (endpoint ++ api_key) (Base64.encode bytes).

(** The world after [req] was posted. *)
Definition posted (w : world F) (req : request) : world F :=
  mkWorld (environ w) (files w) (service w) (sent w ++ [req]).

(** The world after [text] was written to [path]. *)
Definition written (w : world F) (path : string) (text : pystr) : world F :=
  mkWorld (environ w) (<[path := text]> (files w)) (service w) (sent w).

(** The credential is set and not empty, and the input file exists. *)
Definition reaches_service (w : world F) (input_file : string)
           (api_key : pystr) (bytes : list N) : Prop :=
  environ w !! api_key_var = Some api_key
  /\ is_empty api_key = false
  /\ files w !! input_file = Some bytes.

(** [raise_for_status] lets the status through. *)
Definition success_status (status : Z) : Prop :=
  (400 <=? status) && (status <? 600) = false.

(** The entry that line 67 selects, when there is one. *)
Definition first_annotation (result : ApiResult F) : option (Annotation F) :=
  head (default [empty_annotation] (responses result)).

(** The pages of line 75. *)
Definition pages_of (annotation : Annotation F) : list (Page F) :=
  default [] (fta_pages (default empty_full_text (ann_fullTextAnnotation annotation))).

End EngineVocabulary.

(** ** Worked examples *)

Module Examples.

Definition sym (t : string) : Symbol float := mkSymbol (Some (of_string t)) None.
Definition symc (t : string) (c : float) : Symbol float :=
  mkSymbol (Some (of_string t)) (Some c).

Definition rect (x1 y1 x2 y2 : Z) : option BoundingBox :=
  Some (mkBox (Some [pt x1 y1; pt x2 y1; pt x2 y2; pt x1 y2])).

Definition hello : Word float :=
  mkWord (rect 0 0 50 10) (Some [sym "H"; sym "e"; sym "l"; sym "l"; sym "o"]).
Definition world_ : Word float :=
  mkWord (rect 60 0 110 10)
         (Some [symc "W" 0.8; symc "o" 1.0; symc "r" 0.8; symc "l" 1.0; symc "d" 0.9]).
Definition blank : Word float :=
  mkWord (rect 52 0 58 10) (Some [sym " "; mkSymbol (Some [9%N]) None]).

Definition hello_world : Page float :=
  mkPage (Some 200) (Some 100)
    (Some [mkBlock (rect 0 0 110 10)
             (Some [mkParagraph (rect 0 0 110 10) (Some [hello; world_])])]).

End Examples.

(** Worlds to run the entry point in. *)
Module Worlds.

Definition png : list N := [137; 80; 78; 71]%N.

(** One input image, the credential [key] (if any), and a service
    that answers every request with [reply]. *)
Definition world_of (key : option pystr) (reply : http_reply float) : world float :=
  mkWorld (match key with
           | Some k => {[ api_key_var := k ]}
           | None => ∅
           end)
          {[ "page.png"%string := png ]}
          (fun _ => reply)
          [].

Definition secret : pystr := of_string "s3cret".

(** A reply whose single entry has no text annotation at all. *)
Definition no_text : http_reply float :=
  Reply 200 (Some (mkResult (Some [mkAnnotation None None]))).

(** A reply whose single entry reports an error. *)
Definition quota_error : http_reply float :=
  Reply 200 (Some (mkResult
    (Some [mkAnnotation (Some (mkError (Some (of_string "quota exceeded")))) None]))).

(** A reply with ["responses": []]. *)
Definition no_entries : http_reply float :=
  Reply 200 (Some (mkResult (Some []))).

End Worlds.

(** ** Well-formed markup *)








(** Whether a text can stand between tags and inside a quoted
    attribute: it holds no [<], [>] or double quote, and every [&] in it
    starts one of the four entities. *)
Fixpoint markup_safe_fuel (fuel : nat) (s : pystr) : bool :=
  match fuel with
  | O => match s with [] => true | _ => false end
  | S fuel' =>
      match s with
      | [] => true
      | 38%N :: 97%N :: 109%N :: 112%N :: 59%N :: s' => markup_safe_fuel fuel' s'
      | 38%N :: 108%N :: 116%N :: 59%N :: s' => markup_safe_fuel fuel' s'
      | 38%N :: 103%N :: 116%N :: 59%N :: s' => markup_safe_fuel fuel' s'
      | 38%N :: 113%N :: 117%N :: 111%N :: 116%N :: 59%N :: s' =>
          markup_safe_fuel fuel' s'
      | c :: s' =>
          negb ((c =? 38) || (c =? 60) || (c =? 62) || (c =? 34))%N
          && markup_safe_fuel fuel' s'
      end
  end.

Definition markup_safe (s : pystr) : bool := markup_safe_fuel (length s) s.

Section BlankWords.

Context {F : Type} {ops : PyFloat F}.

(** The page without the words that get no leaf. *)
Definition paragraph_without_blanks (paragraph : Paragraph F) : Paragraph F :=
  mkParagraph (par_box paragraph) (Some (visible_words (words_of paragraph))).
Definition block_without_blanks (block : Block F) : Block F :=
  mkBlock (block_box block)
          (Some (List.map paragraph_without_blanks (paragraphs_of block))).
Definition page_without_blanks (page : Page F) : Page F :=
  mkPage (page_width page) (page_height page)
         (Some (List.map block_without_blanks (blocks_of page))).

End BlankWords.

(** ** Reading a box back *)

(** The four numbers of a text [x1 y1 x2 y2], which must end there. *)
Definition read_box (s : pystr) : option (Z * Z * Z * Z) :=
  '(x1, s) ← Markup.read_number s; s ← Markup.read_space s;
  '(y1, s) ← Markup.read_number s; s ← Markup.read_space s;
  '(x2, s) ← Markup.read_number s; s ← Markup.read_space s;
  '(y2, s) ← Markup.read_number s;
  match s with
  | [] => Some (x1, y1, x2, y2)
  | _ => None
  end.

(** The box of a node as the code takes it from the corners: corner 0
    and corner 2, clamped, or all zero for fewer than four corners. *)
Definition corner_box (bounding_box : BoundingBox) : Z * Z * Z * Z :=
  match default [] (vertices bounding_box) with
  | v0 :: _ :: v2 :: _ :: _ =>
      (coordinate (vx v0), coordinate (vy v0), coordinate (vx v2), coordinate (vy v2))
  | _ => (0, 0, 0, 0)
  end.

(** The value of a run of decimal digits read after [acc]. *)
Fixpoint uint_value (acc : Z) (d : Decimal.uint) : Z :=
  match d with
  | Decimal.Nil => acc
  | Decimal.D0 d' => uint_value (10 * acc + 0) d'
  | Decimal.D1 d' => uint_value (10 * acc + 1) d'
  | Decimal.D2 d' => uint_value (10 * acc + 2) d'
  | Decimal.D3 d' => uint_value (10 * acc + 3) d'
  | Decimal.D4 d' => uint_value (10 * acc + 4) d'
  | Decimal.D5 d' => uint_value (10 * acc + 5) d'
  | Decimal.D6 d' => uint_value (10 * acc + 6) d'
  | Decimal.D7 d' => uint_value (10 * acc + 7) d'
  | Decimal.D8 d' => uint_value (10 * acc + 8) d'
  | Decimal.D9 d' => uint_value (10 * acc + 9) d'
  end.

(** A text at which a number ends: it is empty or starts with no digit. *)
Definition ends_number (s : pystr) : Prop :=
  match s with
  | [] => True
  | c :: _ => ((48 <=? c) && (c <=? 57))%N = false
  end.
(** The text up to the page size in the first ten lines. *)
Definition page_prefix : pystr :=
  join newline
    [ lit "<?xml version='1.0' encoding='UTF-8'?>";
      lit "<!DOCTYPE html PUBLIC '-//W3C//DTD XHTML 1.0 Transitional//EN'";
      lit "  'http://www.w3.org/TR/xhtml1/DTD/xhtml1-transitional.dtd'>";
      lit "<html xmlns='http://www.w3.org/1999/xhtml' xml:lang='ko' lang='ko'>";
      lit "<head>";
      lit "  <title>Google Vision OCR</title>";
      lit "  <meta http-equiv='Content-Type' content='text/html; charset=utf-8' />";
      lit "</head>";
      lit "<body>";
      lit "  <div class='ocr_page' id='page_1' title='bbox 0 0 " ].

(** ** What a run does to the world *)

Section RunPlan.

Context {F : Type} {ops : PyFloat F}.

(** The effects of a run: the requests it posts, the files it writes, in
    order, and how it ends. *)
Record plan := mkPlan {
  plan_requests : list request;
  plan_writes : list (string * pystr);
  plan_result : result unit
}.

(** The writes and the end of a run, from the reply on. *)
Definition after_reply (reply : http_reply F) (output_hocr output_text : string)
  : list (string * pystr) * result unit :=
  match reply with
  | NoReply => ([], Raise RequestException)
  | Reply status body =>
      if (400 <=? status) && (status <? 600) then ([], Raise (HTTPError status))
      else
        match body with
        | None => ([], Raise JSONDecodeError)
        | Some result =>
            match first_annotation result with
            | None => ([], Raise IndexError)
            | Some annotation =>
                match ann_error annotation with
                | Some error =>
                    ([], Raise (RuntimeError
                                  (VisionApiError
                                     (default (lit "Unknown error")
                                              (err_message error)))))
                | None =>
                    match pages_of annotation with
                    | [] => ([(output_hocr, empty_hocr); (output_text, [])], Ok tt)
                    | page :: _ =>
                        let text :=
                          default [] (fta_text
                            (default empty_full_text
                                     (ann_fullTextAnnotation annotation))) in
                        match _generate_hocr page (default 1 (page_width page))
                                             (default 1 (page_height page)) with
                        | Ok hocr => ([(output_text, text); (output_hocr, hocr)], Ok tt)
                        | Raise e => ([(output_text, text)], Raise e)
                        end
                    end
                end
            end
        end
  end.

(** The effects of a run, from the credential, the content of the input
    file and the service. *)
Definition run_plan (api_key : option pystr) (image : option (list N))
           (svc : request -> http_reply F) (output_hocr output_text : string)
  : plan :=
  match api_key with
  | None => mkPlan [] [] (Raise (RuntimeError MissingApiKey))
  | Some api_key =>
      if is_empty api_key then mkPlan [] [] (Raise (RuntimeError MissingApiKey))
      else
        match image with
        | None => mkPlan [] [] (Raise OSError)
        | Some bytes =>
            let req := the_request api_key bytes in
            let '(writes, r) := after_reply (svc req) output_hocr output_text in
            mkPlan [req] writes r
        end
  end.

Definition write_all (writes : list (string * pystr)) (fs : gmap string (list N))
  : gmap string (list N) :=
  fold_left (fun fs pc => <[pc.1 := pc.2]> fs) writes fs.

Definition apply_plan (w : world F) (p : plan) : world F * result unit :=
  (mkWorld (environ w) (write_all (plan_writes p) (files w)) (service w)
           (sent w ++ plan_requests p),
   plan_result p).

End RunPlan.

(** The last content written to [path], if any. *)
Fixpoint last_write (path : string) (writes : list (string * pystr)) : option pystr :=
  match writes with
  | [] => None
  | pc :: writes' =>
      match last_write path writes' with
      | Some c => Some c
      | None => if decide (pc.1 = path) then Some pc.2 else None
      end
  end.

Module MoreWorlds.

(** A second page, which [generate_hocr] never looks at. *)
Definition other_page : Page float :=
  mkPage (Some 7) (Some 9)
    (Some [mkBlock None (Some [mkParagraph None (Some [Examples.world_])])]).

(** A reply with two pages and the text of the first. *)
Definition two_pages : http_reply float :=
  Reply 200 (Some (mkResult (Some
    [mkAnnotation None
       (Some (mkFullText (Some [Examples.hello_world; other_page])
                         (Some (of_string "Hello World"))))]))).

(** A page whose only word has a confidence that is not a number. *)
Definition nan_page : Page float :=
  mkPage None None
    (Some [mkBlock None
       (Some [mkParagraph None
          (Some [mkWord None (Some [mkSymbol (Some (of_string "x"))
                                             (Some PrimFloat.nan)])])])]).

Definition nan_reply : http_reply float :=
  Reply 200 (Some (mkResult (Some
    [mkAnnotation None
       (Some (mkFullText (Some [nan_page]) (Some (of_string "x"))))]))).


End MoreWorlds.

Section FirstRaise.

Context {F : Type} {ops : PyFloat F}.

(** The exception of the first word of [ws], in order, that is visible
    and on whose confidence [int] raises, if there is one. *)
Fixpoint first_raise (ws : list (Word F)) : option exn :=
  match ws with
  | [] => None
  | word :: ws' =>
      if visible word
      then match _get_confidence word with
           | Raise e => Some e
           | Ok _ => first_raise ws'
           end
      else first_raise ws'
  end.

End FirstRaise.

Module FailingPages.

Definition word_with (text : string) (c : float) : Word float :=
  mkWord None (Some [mkSymbol (Some (of_string text)) (Some c)]).

(** A blank word with a NaN, a word with an infinite confidence, and a
    word with a NaN, in this order. *)
Definition inf_then_nan : Page float :=
  mkPage None None
    (Some [mkBlock None
             (Some [mkParagraph None (Some [word_with " " PrimFloat.nan]);
                    mkParagraph None (Some [word_with "a" 0.5%float])]);
           mkBlock None
             (Some [mkParagraph None
                      (Some [word_with "b" PrimFloat.infinity;
                             word_with "c" PrimFloat.nan])])]).

End FailingPages.

(** * Properties *)

(** ** The embedding on examples *)

Example bbox_rect :
  _get_bbox (mkBox (Some [pt 0 0; pt 10 0; pt 10 5; pt 0 5])) = lit "0 0 10 5".
Proof. reflexivity. Qed.

Example encode_Man : Base64.encode (of_string "Man") = of_string "TWFu".
Proof. reflexivity. Qed.
Example encode_Ma : Base64.encode (of_string "Ma") = of_string "TWE=".
Proof. reflexivity. Qed.
Example encode_M : Base64.encode (of_string "M") = of_string "TQ==".
Proof. reflexivity. Qed.

Example page_box_header :
  Markup.page_box (join newline (header 640 480 ++ footer)) = Some (0, 0, 640, 480).
Proof. reflexivity. Qed.

Example run_no_text_reply :
  generate_hocr "page.png" "page.hocr" "page.txt"
                (Worlds.world_of (Some Worlds.secret) Worlds.no_text)
  = (mkWorld {[ api_key_var := Worlds.secret ]}
             (<["page.txt"%string := []]>
                (<["page.hocr"%string := empty_hocr]> {[ "page.png"%string := Worlds.png ]}))
             (fun _ => Worlds.no_text)
             [the_request Worlds.secret Worlds.png],
     Ok tt).
Proof. reflexivity. Qed.

(** ** Properties of the string operations *)

Lemma replace_app old new s t :
  replace old new (s ++ t) = replace old new s ++ replace old new t.
Proof.
  induction s as [|c s IH]; simpl; [reflexivity|].
  rewrite IH. now rewrite <- app_assoc.
Qed.

Lemma lstrip_nil_iff s : lstrip s = [] <-> forallb is_space s = true.
Proof.
  induction s as [|c s IH]; simpl; [tauto|].
  destruct (is_space c); simpl; [exact IH|].
  split; discriminate.
Qed.

Lemma forallb_rev_eq {A} (f : A -> bool) (l : list A) :
  forallb f (rev l) = forallb f l.
Proof.
  induction l as [|x l IH]; simpl; [reflexivity|].
  rewrite forallb_app, IH. simpl. rewrite andb_true_r. apply andb_comm.
Qed.

Lemma lstrip_head s c t : lstrip s = c :: t -> is_space c = false.
Proof.
  induction s as [|x s IH]; simpl; [discriminate|].
  destruct (is_space x) eqn:Ex; [exact IH|].
  intros [= -> _]. exact Ex.
Qed.

Lemma rstrip_nil_iff s : rstrip s = [] <-> forallb is_space s = true.
Proof.
  unfold rstrip. rewrite <- (forallb_rev_eq is_space s), <- lstrip_nil_iff.
  split; intros H.
  - apply (f_equal (@rev char)) in H. now rewrite rev_involutive in H.
  - now rewrite H.
Qed.

(** [s.strip()] is empty exactly when [s] is empty or all whitespace. *)
Lemma strip_nil_iff s : strip s = [] <-> forallb is_space s = true.
Proof.
  unfold strip. split.
  - intros H. apply rstrip_nil_iff in H. apply lstrip_nil_iff.
    destruct (lstrip s) as [|c t] eqn:E; [reflexivity|].
    apply lstrip_head in E. simpl in H. rewrite E in H. discriminate.
  - intros H. apply lstrip_nil_iff in H. now rewrite H.
Qed.

(** A non-negative integer prints as decimal digits only. *)
Lemma string_of_uint_digits (d : Decimal.uint) :
  Forall is_digit (of_string (NilEmpty.string_of_uint d)).
Proof.
  unfold of_string, is_digit.
  induction d; simpl; constructor; try assumption; simpl; lia.
Qed.

Lemma str_of_Z_digits z : 0 <= z -> Forall is_digit (str_of_Z z).
Proof.
  intros Hz. unfold str_of_Z.
  destruct z as [|p|p]; [| |lia]; simpl.
  - repeat constructor; unfold is_digit; simpl; lia.
  - unfold NilZero.string_of_uint.
    destruct (Pos.to_uint p); try apply string_of_uint_digits.
    repeat constructor; unfold is_digit; simpl; lia.
Qed.

(** ** Bounding boxes: what [_get_bbox] prints *)

Lemma coordinate_max c : Z.max (default 0 c) 0 = coordinate c.
Proof.
  destruct c as [z|]; simpl; [|reflexivity].
  destruct (Z.ltb_spec z 0); lia.
Qed.

Lemma coordinate_nonneg c : 0 <= coordinate c.
Proof.
  destruct c as [z|]; simpl; [|lia].
  destruct (Z.ltb_spec z 0); lia.
Qed.

Lemma get_bbox_four bb v0 v1 v2 v3 rest :
  vertices bb = Some (v0 :: v1 :: v2 :: v3 :: rest) ->
  _get_bbox bb =
    box_text (coordinate (vx v0)) (coordinate (vy v0))
             (coordinate (vx v2)) (coordinate (vy v2)).
Proof.
  intros H. unfold _get_bbox. rewrite H. simpl.
  now rewrite !coordinate_max.
Qed.

Lemma get_bbox_short bb :
  (length (default [] (vertices bb)) < 4)%nat -> _get_bbox bb = lit "0 0 0 0".
Proof.
  intros H. unfold _get_bbox.
  destruct (Nat.ltb_spec (length (default [] (vertices bb))) 4); [reflexivity|lia].
Qed.

Lemma box_text_chars x1 y1 x2 y2 :
  0 <= x1 -> 0 <= y1 -> 0 <= x2 -> 0 <= y2 ->
  Forall digit_or_space (box_text x1 y1 x2 y2).
Proof.
  intros. unfold box_text.
  assert (Hsp : Forall digit_or_space sp) by (repeat constructor).
  assert (Hd : forall z, 0 <= z -> Forall digit_or_space (str_of_Z z)).
  { intros z Hz. eapply List.Forall_impl; [|apply str_of_Z_digits; exact Hz].
    intros c Hc. right. exact Hc. }
  repeat (apply List.Forall_app; split); auto.
Qed.

Lemma get_bbox_chars bb : Forall digit_or_space (_get_bbox bb).
Proof.
  destruct (Nat.lt_ge_cases (length (default [] (vertices bb))) 4) as [Hlt|Hge].
  - rewrite (get_bbox_short bb Hlt).
    change (lit "0 0 0 0") with (box_text 0 0 0 0).
    apply box_text_chars; lia.
  - destruct bb as [[vs|]]; simpl in Hge; [|lia].
    destruct vs as [|v0 [|v1 [|v2 [|v3 rest]]]]; simpl in Hge; try lia.
    rewrite (get_bbox_four (mkBox (Some (v0 :: v1 :: v2 :: v3 :: rest))) _ _ _ _ _ eq_refl).
    apply box_text_chars; apply coordinate_nonneg.
Qed.

(** C3. [_get_bbox] prints the clamped coordinates of the first and the
    third corner: each is 0 when its key is missing and never negative,
    so the text holds digits and spaces only. The rectangle
    (0,0),(10,0),(10,5),(0,5) prints as [0 0 10 5], and a list of fewer
    than four corners (or no list at all) prints as [0 0 0 0]. *)
Theorem get_bbox_first_and_third_corner :
  (forall bb v0 v1 v2 v3 rest,
      vertices bb = Some (v0 :: v1 :: v2 :: v3 :: rest) ->
      _get_bbox bb =
        box_text (coordinate (vx v0)) (coordinate (vy v0))
                 (coordinate (vx v2)) (coordinate (vy v2)))
  /\ (forall bb,
         (length (default [] (vertices bb)) < 4)%nat ->
         _get_bbox bb = lit "0 0 0 0")
  /\ (forall bb, Forall digit_or_space (_get_bbox bb))
  /\ _get_bbox (mkBox (Some [pt 0 0; pt 10 0; pt 10 5; pt 0 5])) = lit "0 0 10 5"
  /\ _get_bbox (mkBox (Some [pt (-4) 7; pt 10 7; mkVertex (Some 10) None; pt (-4) 9]))
     = lit "0 7 10 0".
Proof.
  split; [exact get_bbox_four|].
  split; [exact get_bbox_short|].
  split; [exact get_bbox_chars|].
  split; reflexivity.
Qed.

Lemma get_bbox_first_and_third_corner_witness :
  _get_bbox (mkBox (Some [pt 3 4; pt 9 4; pt 9 8])) = lit "0 0 0 0"
  /\ _get_bbox (mkBox (Some [pt (-1) 2; pt 5 2; pt 5 6; pt (-1) 6])) = lit "0 2 5 6".
Proof.
  split.
  - apply (proj1 (proj2 get_bbox_first_and_third_corner)). simpl. lia.
  - exact (proj1 get_bbox_first_and_third_corner
             (mkBox (Some [pt (-1) 2; pt 5 2; pt 5 6; pt (-1) 6]))
             _ _ _ _ _ eq_refl).
Defined.

(** C10. With at least four corners, the text depends on corners 0 and 2
    only: two lists that agree there print the same box, whatever their
    other corners are. *)
Theorem get_bbox_ignores_other_corners (vs vs' : list Vertex) :
  (4 <= length vs)%nat -> (4 <= length vs')%nat ->
  vs !! 0%nat = vs' !! 0%nat -> vs !! 2%nat = vs' !! 2%nat ->
  _get_bbox (mkBox (Some vs)) = _get_bbox (mkBox (Some vs')).
Proof.
  intros Hl Hl' H0 H2.
  destruct vs as [|a0 [|a1 [|a2 [|a3 ra]]]]; simpl in Hl; try lia.
  destruct vs' as [|b0 [|b1 [|b2 [|b3 rb]]]]; simpl in Hl'; try lia.
  simpl in H0, H2. injection H0 as ->. injection H2 as ->.
  rewrite (get_bbox_four (mkBox (Some (b0 :: a1 :: b2 :: a3 :: ra))) _ _ _ _ _ eq_refl).
  now rewrite (get_bbox_four (mkBox (Some (b0 :: b1 :: b2 :: b3 :: rb))) _ _ _ _ _ eq_refl).
Qed.

Lemma get_bbox_ignores_other_corners_witness :
  _get_bbox (mkBox (Some [pt 1 2; pt (-50) 99; pt 30 40; mkVertex None None]))
  = _get_bbox (mkBox (Some [pt 1 2; pt 7 7; pt 30 40; pt 0 (-8); pt 5 5])).
Proof.
  apply get_bbox_ignores_other_corners; simpl; solve [lia | reflexivity].
Defined.

(** ** Escaping of word text *)

Lemma html_escape_app s t : html_escape (s ++ t) = html_escape s ++ html_escape t.
Proof. unfold html_escape. now rewrite !replace_app. Qed.

Lemma html_escape_one c : html_escape [c] = escape_char c.
Proof.
  unfold html_escape, escape_char. simpl replace at 4.
  destruct (N.eqb_spec c 38) as [->|H38]; [reflexivity|].
  destruct (N.eqb_spec c 60) as [->|H60]; [reflexivity|].
  destruct (N.eqb_spec c 62) as [->|H62]; [reflexivity|].
  destruct (N.eqb_spec c 34) as [->|H34]; [reflexivity|].
  simpl.
  destruct (N.eqb_spec c 60); [contradiction|]. simpl.
  destruct (N.eqb_spec c 62); [contradiction|]. simpl.
  unfold dquote. destruct (N.eqb_spec c 34); [contradiction|]. reflexivity.
Qed.

Lemma html_escape_flat_map t : html_escape t = flat_map escape_char t.
Proof.
  induction t as [|c t IH]; [reflexivity|].
  change (c :: t) with ([c] ++ t).
  rewrite html_escape_app, html_escape_one, IH. reflexivity.
Qed.

Lemma escape_char_other c : ~ reserved c -> escape_char c = [c].
Proof.
  intros H. unfold escape_char, reserved in *.
  destruct (N.eqb_spec c 38); [tauto|].
  destruct (N.eqb_spec c 60); [tauto|].
  destruct (N.eqb_spec c 62); [tauto|].
  destruct (N.eqb_spec c 34); [tauto|reflexivity].
Qed.

Lemma unescape_fuel_other fuel c s :
  c <> 38%N -> unescape_fuel (S fuel) (c :: s) = c :: unescape_fuel fuel s.
Proof.
  intros H. destruct c as [|p]; [reflexivity|].
  do 6 (destruct p as [p|p|]; try reflexivity).
  contradiction.
Qed.

Lemma length_escape_char c : (1 <= length (escape_char c))%nat.
Proof.
  unfold escape_char.
  repeat match goal with |- context [N.eqb ?a ?b] => destruct (N.eqb a b) end;
    simpl; lia.
Qed.

Lemma unescape_fuel_escape t : forall fuel,
  (length (flat_map escape_char t) <= fuel)%nat ->
  unescape_fuel fuel (flat_map escape_char t) = t.
Proof.
  induction t as [|c t IH]; intros fuel Hf.
  - destruct fuel; reflexivity.
  - simpl in *. rewrite length_app in Hf.
    unfold escape_char in *.
    destruct (N.eqb_spec c 38) as [->|H38];
      [|destruct (N.eqb_spec c 60) as [->|H60];
        [|destruct (N.eqb_spec c 62) as [->|H62];
          [|destruct (N.eqb_spec c 34) as [->|H34]]]];
      simpl in Hf; (destruct fuel as [|fuel]; [lia|]).
    + simpl. f_equal. apply IH. lia.
    + simpl. f_equal. apply IH. lia.
    + simpl. f_equal. apply IH. lia.
    + simpl. f_equal. apply IH. lia.
    + simpl app. rewrite unescape_fuel_other by assumption.
      f_equal. apply IH. lia.
Qed.

(** Escaping loses nothing: the word's text can be read back. *)
Lemma unescape_html_escape t : unescape (html_escape t) = t.
Proof.
  unfold unescape. rewrite html_escape_flat_map.
  now apply unescape_fuel_escape.
Qed.

(** ** The loop over words *)

Section WordLoop.

Context {F : Type} {ops : PyFloat F}.

Lemma for_each_app {A S} (body : S -> A -> result S) xs ys st :
  for_each (xs ++ ys) body st = (st' <- for_each xs body st ;; for_each ys body st').
Proof.
  revert st. induction xs as [|x xs IH]; intros st; simpl; [reflexivity|].
  destruct (body st x) as [st'|e]; simpl; [apply IH|reflexivity].
Qed.

Lemma is_empty_true (s : pystr) : is_empty s = true <-> s = [].
Proof. destruct s; simpl; split; congruence. Qed.

Lemma visible_false (word : Word F) : visible word = false <-> strip (word_text_of word) = [].
Proof.
  unfold visible. rewrite <- is_empty_true.
  destruct (is_empty _); simpl; split; congruence.
Qed.

Lemma word_body_blank st (word : Word F) :
  strip (word_text_of word) = [] -> word_body st word = Ok st.
Proof. intros H. unfold word_body. now rewrite H. Qed.

Lemma word_body_visible st (word : Word F) :
  visible word = true ->
  word_body st word =
    (conf <- _get_confidence word ;;
     Ok (append (NWord (S (word_id st))
                       (_get_bbox (default empty_box (word_box word)))
                       conf (html_escape (word_text_of word)))
                (incr_word st))).
Proof.
  unfold visible, word_body. intros H.
  destruct (is_empty (strip (word_text_of word))); [discriminate|reflexivity].
Qed.

Lemma for_each_skip_blank (word : Word F) ws1 ws2 (st : state) :
  strip (word_text_of word) = [] ->
  for_each (ws1 ++ word :: ws2) word_body st = for_each (ws1 ++ ws2) word_body st.
Proof.
  intros H. rewrite !for_each_app.
  destruct (for_each ws1 word_body st) as [st'|e]; simpl; [|reflexivity].
  now rewrite (word_body_blank st' word H).
Qed.

End WordLoop.

(** C7. In the text of an emitted word each of the characters [&], [<],
    [>] and the double quote is replaced by its entity and every other
    character stands as it is, whatever the order in which they occur:
    the chain of four replacements is the character-by-character map
    [escape_char], so an ampersand written by a later replacement is
    never escaped again, and the original text can be read back. *)
Theorem word_text_escaped_per_character :
  (forall t, html_escape t = flat_map escape_char t)
  /\ (escape_char 38%N = lit "&amp;" /\ escape_char 60%N = lit "&lt;"
      /\ escape_char 62%N = lit "&gt;" /\ escape_char 34%N = lit "&quot;")
  /\ (forall c, ~ reserved c -> escape_char c = [c])
  /\ (forall t, unescape (html_escape t) = t)
  /\ (forall F (ops : PyFloat F) (st st' : state) (word : Word F),
         word_body st word = Ok st' ->
         st' = st
         \/ exists conf,
             lines st' = lines st ++
               [render (NWord (S (word_id st))
                              (_get_bbox (default empty_box (word_box word)))
                              conf (flat_map escape_char (word_text_of word)))])
  /\ html_escape (lit "<a href='x'>&lt; R&D") =
       lit "&lt;a href=&quot;x&quot;&gt;&amp;lt; R&amp;D".
Proof.
  split; [exact html_escape_flat_map|].
  split; [repeat split; reflexivity|].
  split; [exact escape_char_other|].
  split; [exact unescape_html_escape|].
  split; [|reflexivity].
  intros F ops st st' word H.
  destruct (visible word) eqn:V.
  - right. rewrite (word_body_visible st word V) in H.
    destruct (_get_confidence word) as [conf|e]; simpl in H; [|discriminate].
    injection H as <-. exists conf. simpl.
    now rewrite html_escape_flat_map.
  - left. apply visible_false in V.
    rewrite (word_body_blank st word V) in H. congruence.
Qed.

Lemma word_text_escaped_per_character_witness :
  escape_char 65%N = [65%N]
  /\ exists conf,
      lines (append (NWord 1 (lit "0 0 0 0") 90 (lit "&amp;")) (incr_word (mkState [] 0 0 0 0)))
      = [] ++ [render (NWord 1 (lit "0 0 0 0") conf (lit "&amp;"))].
Proof.
  split.
  - apply (proj1 (proj2 (proj2 word_text_escaped_per_character))).
    unfold reserved. lia.
  - destruct (proj1 (proj2 (proj2 (proj2 (proj2 word_text_escaped_per_character))))
                float binary64 (mkState [] 0 0 0 0)
                (append (NWord 1 (lit "0 0 0 0") 90 (lit "&amp;"))
                        (incr_word (mkState [] 0 0 0 0)))
                (mkWord None (Some [mkSymbol (Some (lit "&")) None]))
                eq_refl) as [H|H].
    + discriminate H.
    + exact H.
Defined.

(** C4. A word whose concatenated symbol text strips to nothing (it is
    empty, or whitespace only) leaves the loop's state as it was: no
    line is appended and no counter moves, so the paragraph is
    transcoded as if the word were not there and the words after it are
    numbered as before. *)
Theorem blank_word_is_skipped F (ops : PyFloat F) (word : Word F) :
  strip (word_text_of word) = [] ->
  (forallb is_space (word_text_of word) = true)
  /\ (forall st, word_body st word = Ok st)
  /\ (forall ws1 ws2 st,
         for_each (ws1 ++ word :: ws2) word_body st
         = for_each (ws1 ++ ws2) word_body st)
  /\ (forall box ws1 ws2 st,
         paragraph_body st (mkParagraph box (Some (ws1 ++ word :: ws2)))
         = paragraph_body st (mkParagraph box (Some (ws1 ++ ws2)))).
Proof.
  intros H.
  split; [now apply strip_nil_iff|].
  split; [intros st; now apply word_body_blank|].
  split; [intros; now apply for_each_skip_blank|].
  intros box ws1 ws2 st. unfold paragraph_body. simpl.
  now rewrite (for_each_skip_blank word ws1 ws2 _ H).
Qed.

Lemma blank_word_is_skipped_witness :
  word_body (mkState [] 3 1 1 1) Examples.blank = Ok (mkState [] 3 1 1 1)
  /\ for_each ([Examples.hello] ++ Examples.blank :: [Examples.world_])
              word_body (mkState [] 0 1 1 1)
     = for_each ([Examples.hello] ++ [Examples.world_])
                word_body (mkState [] 0 1 1 1).
Proof.
  split.
  - apply (proj1 (proj2 (blank_word_is_skipped float binary64 Examples.blank eq_refl))).
  - apply (proj1 (proj2 (proj2
             (blank_word_is_skipped float binary64 Examples.blank eq_refl)))).
Defined.

(** ** The structure of the transcoded page *)

Section PageStructure.

Context {F : Type} {ops : PyFloat F}.

Lemma confident_cons (word : Word F) ws :
  confident (word :: ws) ->
  (visible word = true -> exists conf, _get_confidence word = Ok conf)
  /\ confident ws.
Proof.
  intros H. split.
  - apply H. now left.
  - intros w Hw. apply H. now right.
Qed.

Lemma confident_app (ws1 ws2 : list (Word F)) :
  confident (ws1 ++ ws2) -> confident ws1 /\ confident ws2.
Proof.
  intros H. split; intros w Hw; apply H; apply in_or_app; tauto.
Qed.

Lemma visible_words_app (ws1 ws2 : list (Word F)) :
  visible_words (ws1 ++ ws2) = visible_words ws1 ++ visible_words ws2.
Proof. apply List.filter_app. Qed.

(** The loop over the words of a paragraph. *)
Lemma word_loop ws : forall st,
  confident ws ->
  for_each ws word_body st =
    Ok (mkState (lines st ++ List.map render (word_nodes (word_id st) ws))
                (word_id st + length (visible_words ws))
                (block_id st) (par_id st) (line_id st)).
Proof.
  induction ws as [|word ws IH]; intros st Hc.
  - simpl. rewrite app_nil_r, Nat.add_0_r. now destruct st.
  - apply confident_cons in Hc as [Hw Hc]. simpl.
    destruct (visible word) eqn:V.
    + rewrite (word_body_visible st word V).
      destruct (Hw eq_refl) as [conf Hconf].
      unfold conf_of. rewrite Hconf. simpl bind.
      rewrite (IH _ Hc). simpl.
      rewrite <- app_assoc. simpl. f_equal. f_equal. lia.
    + rewrite (word_body_blank st word (proj1 (visible_false word) V)).
      simpl bind. now rewrite (IH _ Hc).
Qed.

(** The loop over the paragraphs of a block. *)
Lemma paragraph_loop ps : forall st,
  confident (flat_map words_of ps) ->
  for_each ps paragraph_body st =
    Ok (mkState
          (lines st ++ List.map render
             (paragraph_nodes (par_id st) (line_id st) (word_id st) ps))
          (word_id st + length (visible_words (flat_map words_of ps)))
          (block_id st) (par_id st + length ps) (line_id st + length ps)).
Proof.
  induction ps as [|p ps IH]; intros st Hc.
  - simpl. rewrite app_nil_r, !Nat.add_0_r. now destruct st.
  - simpl in Hc. apply confident_app in Hc as [Hp Hc].
    simpl for_each. unfold paragraph_body.
    fold (words_of p). rewrite (word_loop _ _ Hp). simpl bind.
    rewrite (IH _ Hc). simpl.
    rewrite visible_words_app, length_app.
    f_equal. f_equal; try lia.
    rewrite !List.map_app. simpl.
    repeat (rewrite <- app_assoc; simpl). reflexivity.
Qed.

(** The loop over the blocks of the page. *)
Lemma block_loop bs : forall st,
  confident (flat_map block_words bs) ->
  for_each bs block_body st =
    Ok (mkState
          (lines st ++ List.map render
             (block_nodes (block_id st) (par_id st) (line_id st) (word_id st) bs))
          (word_id st + length (visible_words (flat_map block_words bs)))
          (block_id st + length bs)
          (par_id st + length (flat_map paragraphs_of bs))
          (line_id st + length (flat_map paragraphs_of bs))).
Proof.
  induction bs as [|b bs IH]; intros st Hc.
  - simpl. rewrite app_nil_r, !Nat.add_0_r. now destruct st.
  - simpl in Hc. apply confident_app in Hc as [Hb Hc].
    simpl for_each. unfold block_body.
    fold (paragraphs_of b). rewrite (paragraph_loop _ _ Hb). simpl bind.
    rewrite (IH _ Hc). simpl.
    rewrite visible_words_app, !length_app.
    f_equal. f_equal; try (unfold block_words; lia).
    rewrite !List.map_app. simpl.
    repeat (rewrite <- app_assoc; simpl). reflexivity.
Qed.

(** Conversely, a loop that returns found a confidence for every
visible word: [confident] is exactly the condition under which the
transcoder returns. *)
Lemma word_loop_returns ws : forall st st',
for_each ws word_body st = Ok st' -> confident ws.
Proof.
induction ws as [|word ws IH]; intros st st' H; [intros w []|].
simpl in H. destruct (word_body st word) as [st1|e] eqn:E; [|discriminate].
simpl in H. intros w [<-|Hin] V.
- rewrite (word_body_visible st word V) in E.
  destruct (_get_confidence word) as [conf|e]; [now exists conf|discriminate].
- exact (IH _ _ H w Hin V).
Qed.

Lemma paragraph_loop_returns ps : forall st st',
for_each ps paragraph_body st = Ok st' -> confident (flat_map words_of ps).
Proof.
induction ps as [|p ps IH]; intros st st' H; [intros w []|].
simpl in H. destruct (paragraph_body st p) as [st1|e] eqn:E; [|discriminate].
simpl in H. unfold paragraph_body in E.
match type of E with
| context [for_each ?ws word_body ?s] =>
    destruct (for_each ws word_body s) as [st2|e] eqn:Ew; [|discriminate]
end.
intros w Hin V. simpl in Hin. apply in_app_or in Hin as [Hin|Hin].
- exact (word_loop_returns _ _ _ Ew w Hin V).
- exact (IH _ _ H w Hin V).
Qed.

Lemma block_loop_returns bs : forall st st',
for_each bs block_body st = Ok st' -> confident (flat_map block_words bs).
Proof.
induction bs as [|b bs IH]; intros st st' H; [intros w []|].
simpl in H. destruct (block_body st b) as [st1|e] eqn:E; [|discriminate].
simpl in H. unfold block_body in E.
match type of E with
| context [for_each ?ps paragraph_body ?s] =>
    destruct (for_each ps paragraph_body s) as [st2|e] eqn:Ep; [|discriminate]
end.
intros w Hin V. simpl in Hin. apply in_app_or in Hin as [Hin|Hin].
- exact (paragraph_loop_returns _ _ _ Ep w Hin V).
- exact (IH _ _ H w Hin V).
Qed.

Lemma hocr_lines_returns_iff page width height :
(exists ls, hocr_lines page width height = Ok ls) <-> confident (page_words page).
Proof.
split.
- intros [ls H]. unfold hocr_lines in H.
  match type of H with
  | context [for_each ?bs block_body ?s] =>
      destruct (for_each bs block_body s) as [st|e] eqn:E; [|discriminate]
  end.
  exact (block_loop_returns _ _ _ E).
- intros Hc. unfold hocr_lines. fold (blocks_of page).
  rewrite (block_loop _ _ Hc). eexists. reflexivity.
Qed.

End PageStructure.

Section PageNumbering.

Context {F : Type} {ops : PyFloat F}.


(** *** Words *)




(** *** Paragraphs *)



(** *** Blocks *)



End PageNumbering.




(** ** The engine entry point: outcomes *)

Section EngineFacts.

Context {F : Type} {ops : PyFloat F}.

(** *** Steps of the run *)

Lemma run_falsy_key input_file output_hocr output_text (w : world F) :
  environ w !! api_key_var = None \/ environ w !! api_key_var = Some ([] : pystr) ->
  generate_hocr input_file output_hocr output_text w
  = (w, Raise (RuntimeError MissingApiKey)).
Proof.
  intros [H|H]; unfold generate_hocr, bindM, getenv; cbv beta iota; rewrite H;
    reflexivity.
Qed.

(** Up to the reply: the credential check, the read and the post. *)
Lemma run_to_reply input_file output_hocr output_text (w : world F)
      api_key bytes :
  reaches_service w input_file api_key bytes ->
  generate_hocr input_file output_hocr output_text w
  = match service w (the_request api_key bytes) with
    | NoReply => (posted w (the_request api_key bytes), Raise RequestException)
    | Reply status body =>
        ((raise_for_status status ;;;
          result <<- json body ;;
          annotation <<- first (default [empty_annotation] (responses result)) ;;
          match ann_error annotation with
          | Some error =>
              raise (RuntimeError
                       (VisionApiError
                          (default (lit "Unknown error") (err_message error))))
          | None =>
              let full_text_annotation :=
                default empty_full_text (ann_fullTextAnnotation annotation) in
              match default [] (fta_pages full_text_annotation) with
              | [] =>
                  _write_empty_hocr output_hocr ;;;
                  write_text output_text []
              | page :: _ =>
                  write_text output_text
                    (default [] (fta_text full_text_annotation)) ;;;
                  hocr <<- lift (_generate_hocr page
                                   (default 1 (page_width page))
                                   (default 1 (page_height page))) ;;
                  write_text output_hocr hocr
              end
          end) (posted w (the_request api_key bytes)))
    end.
Proof.
  intros (Hkey & Hne & Hfile).
  unfold generate_hocr, bindM at 1, getenv. cbv beta iota. rewrite Hkey, Hne.
  unfold bindM at 1, read_bytes. cbv beta iota. rewrite Hfile.
  unfold bindM at 1, post. cbv beta iota zeta. fold (the_request api_key bytes).
  destruct (service w (the_request api_key bytes)) as [|status body];
    reflexivity.
Qed.

Lemma run_http_error input_file output_hocr output_text (w : world F)
      api_key bytes status body :
  reaches_service w input_file api_key bytes ->
  service w (the_request api_key bytes) = Reply status body ->
  ~ success_status status ->
  generate_hocr input_file output_hocr output_text w
  = (posted w (the_request api_key bytes), Raise (HTTPError status)).
Proof.
  intros Hr Hs Hst. rewrite (run_to_reply _ _ _ _ _ _ Hr), Hs.
  unfold success_status in Hst. unfold bindM at 1, raise_for_status.
  destruct ((400 <=? status) && (status <? 600)); [reflexivity|congruence].
Qed.

(** Up to the selected entry of a reply that is JSON. *)
Lemma run_to_annotation input_file output_hocr output_text (w : world F)
      api_key bytes status result :
  reaches_service w input_file api_key bytes ->
  service w (the_request api_key bytes) = Reply status (Some result) ->
  success_status status ->
  generate_hocr input_file output_hocr output_text w
  = match first_annotation result with
    | None => (posted w (the_request api_key bytes), Raise IndexError)
    | Some annotation =>
        match ann_error annotation with
        | Some error =>
            (posted w (the_request api_key bytes),
             Raise (RuntimeError
                      (VisionApiError
                         (default (lit "Unknown error") (err_message error)))))
        | None =>
            match pages_of annotation with
            | [] =>
                (written (written (posted w (the_request api_key bytes))
                                  output_hocr empty_hocr)
                         output_text [],
                 Ok tt)
            | page :: _ =>
                let w1 :=
                  written (posted w (the_request api_key bytes)) output_text
                    (default [] (fta_text
                       (default empty_full_text
                                (ann_fullTextAnnotation annotation)))) in
                match _generate_hocr page (default 1 (page_width page))
                                     (default 1 (page_height page)) with
                | Ok hocr => (written w1 output_hocr hocr, Ok tt)
                | Raise e => (w1, Raise e)
                end
            end
        end
    end.
Proof.
  intros Hr Hs Hst. rewrite (run_to_reply _ _ _ _ _ _ Hr), Hs.
  unfold success_status in Hst.
  unfold bindM at 1, raise_for_status. rewrite Hst.
  unfold ret, bindM at 1, json, ret, bindM at 1, first_annotation.
  destruct (default [empty_annotation] (responses result)) as [|annotation rest];
    [reflexivity|].
  unfold first, ret, head, pages_of.
  destruct (ann_error annotation) as [error|]; [reflexivity|].
  destruct (default [] (fta_pages _)) as [|page pages]; [reflexivity|].
  unfold bindM, write_text, lift, written, posted. cbn [environ files service sent].
  destruct (_generate_hocr page _ _); reflexivity.
Qed.

End EngineFacts.

Lemma worlds_reach_service (reply : http_reply float) :
  reaches_service (Worlds.world_of (Some Worlds.secret) reply) "page.png" Worlds.secret Worlds.png.
Proof. repeat split. Qed.

(** ** The engine entry point: the specification's cases *)

(** C1, as the code has it. When the selected entry holds no page (no
    text annotation, no ["pages"] key, or an empty list), the run
    returns without raising, having written the fixed document
    [empty_hocr] to the markup path and then the empty string to the
    text path.  The document has one page container and no word leaf;
    the container's box is [0 0 1 1], one unit wide and one unit high. *)
Theorem no_pages_writes_unit_page_document
        F (ops : PyFloat F) (w : world F)
        (input_file output_hocr output_text : string)
        api_key bytes status result annotation :
  reaches_service w input_file api_key bytes ->
  service w (the_request api_key bytes) = Reply status (Some result) ->
  success_status status ->
  first_annotation result = Some annotation ->
  ann_error annotation = None ->
  pages_of annotation = [] ->
  generate_hocr input_file output_hocr output_text w
  = (written (written (posted w (the_request api_key bytes))
                      output_hocr empty_hocr)
             output_text [],
     Ok tt)
  /\ Markup.occurrences (lit "class='ocr_page'") empty_hocr = 1%nat
  /\ Markup.occurrences (lit "class='ocrx_word'") empty_hocr = 0%nat
  /\ Markup.page_box empty_hocr = Some (0, 0, 1, 1)
  /\ Markup.box_width (0, 0, 1, 1) = 1
  /\ Markup.box_height (0, 0, 1, 1) = 1.
Proof.
  intros Hr Hs Hst Ha He Hp.
  split; [|repeat split].
  rewrite (run_to_annotation _ _ _ _ _ _ _ _ Hr Hs Hst), Ha, He, Hp.
  reflexivity.
Qed.

Lemma no_pages_writes_unit_page_document_witness :
  generate_hocr "page.png" "page.hocr" "page.txt"
                (Worlds.world_of (Some Worlds.secret) Worlds.no_text)
  = (written (written (posted (Worlds.world_of (Some Worlds.secret) Worlds.no_text)
                              (the_request Worlds.secret Worlds.png))
                      "page.hocr" empty_hocr)
             "page.txt" [],
     Ok tt)
  /\ Markup.occurrences (lit "class='ocr_page'") empty_hocr = 1%nat
  /\ Markup.occurrences (lit "class='ocrx_word'") empty_hocr = 0%nat
  /\ Markup.page_box empty_hocr = Some (0, 0, 1, 1)
  /\ Markup.box_width (0, 0, 1, 1) = 1
  /\ Markup.box_height (0, 0, 1, 1) = 1.
Proof.
  apply (no_pages_writes_unit_page_document
           float binary64 (Worlds.world_of (Some Worlds.secret) Worlds.no_text)
           "page.png" "page.hocr" "page.txt" Worlds.secret Worlds.png 200
           (mkResult (Some [mkAnnotation None None])) (mkAnnotation None None)).
  - apply worlds_reach_service.
  - reflexivity.
  - reflexivity.
  - reflexivity.
  - reflexivity.
  - reflexivity.
Defined.

(** C1 as the specification words it fails: for a reply without pages
    the markup file is written, and the page container read back from
    it is not zero-sized (it is the box [0 0 1 1]). *)
Lemma no_pages_page_container_not_zero_sized :
  ~ (forall doc box,
        files (fst (generate_hocr "page.png" "page.hocr" "page.txt"
                      (Worlds.world_of (Some Worlds.secret) Worlds.no_text)))
          !! "page.hocr"%string = Some doc ->
        Markup.page_box doc = Some box ->
        Markup.zero_sized box).
Proof.
  intros H.
  specialize (H empty_hocr (0, 0, 1, 1) eq_refl eq_refl).
  destruct H as [H|H]; discriminate H.
Qed.

(** C5. A run that fails for a missing credential, for an HTTP error
    status, or for an error object in the first entry of the reply,
    raises before anything is written: the file system is the one the
    run started with.  The missing (or empty) credential fails first of
    all: the world is unchanged, so nothing was posted either. *)
Theorem failures_write_no_file
        F (ops : PyFloat F) (w : world F)
        (input_file output_hocr output_text : string) :
  (environ w !! api_key_var = None \/ environ w !! api_key_var = Some ([] : pystr) ->
   generate_hocr input_file output_hocr output_text w
   = (w, Raise (RuntimeError MissingApiKey)))
  /\ (forall api_key bytes status body,
         reaches_service w input_file api_key bytes ->
         service w (the_request api_key bytes) = Reply status body ->
         ~ success_status status ->
         exists w',
           generate_hocr input_file output_hocr output_text w
           = (w', Raise (HTTPError status))
           /\ files w' = files w)
  /\ (forall api_key bytes status result annotation error,
         reaches_service w input_file api_key bytes ->
         service w (the_request api_key bytes) = Reply status (Some result) ->
         success_status status ->
         first_annotation result = Some annotation ->
         ann_error annotation = Some error ->
         exists w',
           generate_hocr input_file output_hocr output_text w
           = (w', Raise (RuntimeError
                           (VisionApiError
                              (default (lit "Unknown error") (err_message error)))))
           /\ files w' = files w).
Proof.
  split; [apply run_falsy_key|]. split.
  - intros api_key bytes status body Hr Hs Hst.
    exists (posted w (the_request api_key bytes)).
    split; [now apply (run_http_error _ _ _ _ _ _ _ body)|reflexivity].
  - intros api_key bytes status result annotation error Hr Hs Hst Ha He.
    exists (posted w (the_request api_key bytes)).
    split; [|reflexivity].
    now rewrite (run_to_annotation _ _ _ _ _ _ _ _ Hr Hs Hst), Ha, He.
Qed.

Lemma failures_write_no_file_witness :
  generate_hocr "page.png" "page.hocr" "page.txt"
                (Worlds.world_of None Worlds.no_text)
  = (Worlds.world_of None Worlds.no_text, Raise (RuntimeError MissingApiKey))
  /\ (exists w',
         generate_hocr "page.png" "page.hocr" "page.txt"
                       (Worlds.world_of (Some Worlds.secret) (Reply 403 None))
         = (w', Raise (HTTPError 403))
         /\ files w' = files (Worlds.world_of (Some Worlds.secret) (Reply 403 None)))
  /\ (exists w',
         generate_hocr "page.png" "page.hocr" "page.txt"
                       (Worlds.world_of (Some Worlds.secret) Worlds.quota_error)
         = (w', Raise (RuntimeError (VisionApiError (of_string "quota exceeded"))))
         /\ files w' = files (Worlds.world_of (Some Worlds.secret) Worlds.quota_error)).
Proof.
  split; [|split].
  - apply (proj1 (failures_write_no_file float binary64
                    (Worlds.world_of None Worlds.no_text)
                    "page.png" "page.hocr" "page.txt")).
    left. reflexivity.
  - apply (proj1 (proj2 (failures_write_no_file float binary64
                           (Worlds.world_of (Some Worlds.secret) (Reply 403 None))
                           "page.png" "page.hocr" "page.txt"))
                 Worlds.secret Worlds.png 403 None).
    + apply worlds_reach_service.
    + reflexivity.
    + unfold success_status. simpl. discriminate.
  - apply (proj2 (proj2 (failures_write_no_file float binary64
                           (Worlds.world_of (Some Worlds.secret) Worlds.quota_error)
                           "page.png" "page.hocr" "page.txt"))
                 Worlds.secret Worlds.png 200
                 (mkResult (Some [mkAnnotation
                    (Some (mkError (Some (of_string "quota exceeded")))) None]))
                 (mkAnnotation (Some (mkError (Some (of_string "quota exceeded")))) None)
                 (mkError (Some (of_string "quota exceeded")))).
    + apply worlds_reach_service.
    + reflexivity.
    + reflexivity.
    + reflexivity.
    + reflexivity.
Defined.

(** C8. The credential check is on truthiness: a variable that is set to
    the empty string raises the same configuration error as an absent
    one, with the world untouched, while any non-empty value passes the
    check (the run goes on to open the input file). *)
Theorem empty_credential_is_missing
        F (ops : PyFloat F) (w : world F)
        (input_file output_hocr output_text : string) :
  (environ w !! api_key_var = Some ([] : pystr) ->
   generate_hocr input_file output_hocr output_text w
   = (w, Raise (RuntimeError MissingApiKey)))
  /\ (environ w !! api_key_var = None ->
      generate_hocr input_file output_hocr output_text w
      = (w, Raise (RuntimeError MissingApiKey)))
  /\ (forall (c : char) (api_key : pystr),
         environ w !! api_key_var = Some ((c :: api_key) : pystr) ->
         files w !! input_file = None ->
         generate_hocr input_file output_hocr output_text w = (w, Raise OSError)).
Proof.
  split; [intros H; apply run_falsy_key; now right|].
  split; [intros H; apply run_falsy_key; now left|].
  intros c api_key Hkey Hfile.
  unfold generate_hocr, bindM at 1, getenv. cbv beta iota. rewrite Hkey.
  cbn [is_empty]. unfold bindM at 1, read_bytes. cbv beta iota.
  rewrite Hfile. reflexivity.
Qed.

Lemma empty_credential_is_missing_witness :
  generate_hocr "page.png" "page.hocr" "page.txt"
                (Worlds.world_of (Some []) Worlds.no_text)
  = (Worlds.world_of (Some []) Worlds.no_text, Raise (RuntimeError MissingApiKey))
  /\ generate_hocr "scan.png" "page.hocr" "page.txt"
                   (Worlds.world_of (Some Worlds.secret) Worlds.no_text)
     = (Worlds.world_of (Some Worlds.secret) Worlds.no_text, Raise OSError).
Proof.
  split.
  - apply (proj1 (empty_credential_is_missing float binary64
                    (Worlds.world_of (Some []) Worlds.no_text)
                    "page.png" "page.hocr" "page.txt")).
    reflexivity.
  - apply (proj2 (proj2 (empty_credential_is_missing float binary64
                           (Worlds.world_of (Some Worlds.secret) Worlds.no_text)
                           "scan.png" "page.hocr" "page.txt"))
                 115%N (of_string "3cret")); reflexivity.
Defined.

(** C9. A reply whose ["responses"] key is bound to the empty list makes
    line 67 raise [IndexError]: it is none of the run's own errors
    (configuration, transport, service), and nothing is written.  The
    default [[{}]] serves only a reply without the key, which then takes
    the no-page path. *)
Theorem empty_responses_raise_index_error
        F (ops : PyFloat F) (w : world F)
        (input_file output_hocr output_text : string)
        api_key bytes status :
  reaches_service w input_file api_key bytes ->
  success_status status ->
  (service w (the_request api_key bytes) = Reply status (Some (mkResult (Some []))) ->
   generate_hocr input_file output_hocr output_text w
   = (posted w (the_request api_key bytes), Raise IndexError)
   /\ files (posted w (the_request api_key bytes)) = files w)
  /\ (service w (the_request api_key bytes) = Reply status (Some (mkResult None)) ->
      generate_hocr input_file output_hocr output_text w
      = (written (written (posted w (the_request api_key bytes))
                          output_hocr empty_hocr)
                 output_text [],
         Ok tt)).
Proof.
  intros Hr Hst. split; intros Hs.
  - split; [|reflexivity].
    now rewrite (run_to_annotation _ _ _ _ _ _ _ _ Hr Hs Hst).
  - now rewrite (run_to_annotation _ _ _ _ _ _ _ _ Hr Hs Hst).
Qed.

Lemma empty_responses_raise_index_error_witness :
  generate_hocr "page.png" "page.hocr" "page.txt"
                (Worlds.world_of (Some Worlds.secret) Worlds.no_entries)
  = (posted (Worlds.world_of (Some Worlds.secret) Worlds.no_entries)
            (the_request Worlds.secret Worlds.png),
     Raise IndexError)
  /\ files (posted (Worlds.world_of (Some Worlds.secret) Worlds.no_entries)
                   (the_request Worlds.secret Worlds.png))
     = files (Worlds.world_of (Some Worlds.secret) Worlds.no_entries).
Proof.
  apply (proj1 (empty_responses_raise_index_error float binary64
                  (Worlds.world_of (Some Worlds.secret) Worlds.no_entries)
                  "page.png" "page.hocr" "page.txt" Worlds.secret Worlds.png 200
                  (worlds_reach_service Worlds.no_entries) eq_refl)).
  reflexivity.
Defined.

(** * Further properties *)

Section NestingFacts.

Context {F : Type} {ops : PyFloat F}.










(** What [hocr_lines] returns, when it does. *)
Lemma hocr_lines_nodes (page : Page F) width height ls :
  hocr_lines page width height = Ok ls ->
  ls = header width height
       ++ List.map render (block_nodes 0 0 0 0 (blocks_of page)) ++ footer.
Proof.
  intros H.
  assert (Hc : confident (page_words page))
    by (apply (hocr_lines_returns_iff page width height); eauto).
  unfold hocr_lines in H. fold (blocks_of page) in H.
  rewrite (block_loop _ _ Hc) in H. unfold bind in H.
  cbn [lines word_id block_id par_id line_id] in H.
  assert (E : (header width height
               ++ List.map render (block_nodes 0 0 0 0 (blocks_of page)))
              ++ footer = ls) by congruence.
  rewrite <- E. now rewrite <- app_assoc.
Qed.

End NestingFacts.





Section BlankFacts.

Context {F : Type} {ops : PyFloat F}.

Lemma for_each_visible_words (ws : list (Word F)) : forall st,
  for_each (visible_words ws) word_body st = for_each ws word_body st.
Proof.
  induction ws as [|w ws IH]; intros st; [reflexivity|].
  unfold visible_words in *. simpl.
  destruct (visible w) eqn:V; simpl.
  - destruct (word_body st w); simpl; [apply IH|reflexivity].
  - rewrite (word_body_blank st w (proj1 (visible_false w) V)). simpl. apply IH.
Qed.

Lemma for_each_map_same {A S} (f : A -> A) (body : S -> A -> result S) xs :
  (forall st x, body st (f x) = body st x) ->
  forall st, for_each (List.map f xs) body st = for_each xs body st.
Proof.
  intros Hf. induction xs as [|x xs IH]; intros st; [reflexivity|].
  simpl. rewrite Hf. destruct (body st x); simpl; [apply IH|reflexivity].
Qed.

Lemma paragraph_body_without_blanks st (p : Paragraph F) :
  paragraph_body st (paragraph_without_blanks p) = paragraph_body st p.
Proof.
  unfold paragraph_body, paragraph_without_blanks. simpl.
  fold (words_of p). now rewrite for_each_visible_words.
Qed.

Lemma block_body_without_blanks st (b : Block F) :
  block_body st (block_without_blanks b) = block_body st b.
Proof.
  unfold block_body, block_without_blanks. simpl.
  fold (paragraphs_of b).
  now rewrite (for_each_map_same _ _ _ paragraph_body_without_blanks).
Qed.

End BlankFacts.

(** X7. Words without visible text change nothing anywhere on the page:
    the transcoder gives the same document, or raises the same
    exception, as on the page from which all of them are removed. *)
Theorem blank_words_do_not_matter
        F (ops : PyFloat F) (page : Page F) (width height : Z) :
  _generate_hocr (page_without_blanks page) width height
  = _generate_hocr page width height.
Proof.
  unfold _generate_hocr, hocr_lines, page_without_blanks. simpl.
  fold (blocks_of page).
  now rewrite (for_each_map_same _ _ _ block_body_without_blanks).
Qed.

Section SafeFacts.

Lemma markup_safe_fuel_other fuel c s :
  ~ reserved c ->
  markup_safe_fuel (S fuel) (c :: s) = markup_safe_fuel fuel s.
Proof.
  unfold reserved. intros H.
  assert (H38 : c <> 38%N) by tauto.
  assert (E : ((c =? 38) || (c =? 60) || (c =? 62) || (c =? 34))%N = false).
  { repeat (apply orb_false_intro); apply N.eqb_neq; tauto. }
  destruct c as [|p]; [reflexivity|].
  do 6 (destruct p as [p|p|]; try (cbn -[N.eqb]; rewrite E; reflexivity)).
  contradiction.
Qed.

Lemma markup_safe_fuel_escape t : forall fuel,
  (length (flat_map escape_char t) <= fuel)%nat ->
  markup_safe_fuel fuel (flat_map escape_char t) = true.
Proof.
  induction t as [|c t IH]; intros fuel Hf.
  - destruct fuel; reflexivity.
  - simpl in *. rewrite length_app in Hf.
    pose proof (escape_char_other c) as Hother.
    unfold escape_char in *.
    destruct (N.eqb_spec c 38) as [->|H38];
      [|destruct (N.eqb_spec c 60) as [->|H60];
        [|destruct (N.eqb_spec c 62) as [->|H62];
          [|destruct (N.eqb_spec c 34) as [->|H34]]]];
      simpl in Hf; (destruct fuel as [|fuel]; [lia|]).
    + simpl. apply IH. lia.
    + simpl. apply IH. lia.
    + simpl. apply IH. lia.
    + simpl. apply IH. lia.
    + simpl app. rewrite markup_safe_fuel_other by (unfold reserved; tauto).
      apply IH. lia.
Qed.

End SafeFacts.

(** X8. The text of an emitted word is safe where it stands, between
    tags: whatever the service sent, it holds no [<], [>] or double
    quote, and every [&] in it starts one of the four entities. *)
Theorem word_text_is_markup_safe :
  (forall t, markup_safe (html_escape t) = true)
  /\ (forall F (ops : PyFloat F) (st st' : state) (word : Word F),
         word_body st word = Ok st' ->
         st' = st
         \/ exists conf,
             lines st' = lines st ++
               [render (NWord (S (word_id st))
                              (_get_bbox (default empty_box (word_box word)))
                              conf (html_escape (word_text_of word)))]
             /\ markup_safe (html_escape (word_text_of word)) = true).
Proof.
  assert (Hsafe : forall t, markup_safe (html_escape t) = true).
  { intros t. unfold markup_safe. rewrite html_escape_flat_map.
    now apply markup_safe_fuel_escape. }
  split; [exact Hsafe|].
  intros F ops st st' word H.
  destruct (visible word) eqn:V.
  - right. rewrite (word_body_visible st word V) in H.
    destruct (_get_confidence word) as [conf|e]; simpl in H; [|discriminate].
    injection H as <-. exists conf. split; [reflexivity|apply Hsafe].
  - left. apply visible_false in V.
    rewrite (word_body_blank st word V) in H. congruence.
Qed.

Lemma read_digits_end acc s : ends_number s -> Markup.read_digits acc s = (acc, s).
Proof. destruct s as [|c s]; simpl; [reflexivity|]. now intros ->. Qed.

Lemma read_digits_uint d : forall acc rest,
  ends_number rest ->
  Markup.read_digits acc (of_string (NilEmpty.string_of_uint d) ++ rest)
  = (uint_value acc d, rest).
Proof.
  induction d; intros acc rest Hrest;
    [now apply read_digits_end|..];
    cbn -[Z.mul Z.add]; now rewrite IHd.
Qed.

Lemma of_uint_acc_value d : forall acc,
  Z.pos (Pos.of_uint_acc d acc) = uint_value (Z.pos acc) d.
Proof.
  induction d; intros acc; simpl; rewrite ?IHd; try reflexivity; f_equal; lia.
Qed.

Lemma of_uint_value d : Z.of_N (Pos.of_uint d) = uint_value 0 d.
Proof.
  induction d; simpl; try assumption; try reflexivity;
    now rewrite of_uint_acc_value.
Qed.

Lemma uint_value_to_uint p : uint_value 0 (Pos.to_uint p) = Z.pos p.
Proof. now rewrite <- of_uint_value, DecimalPos.Unsigned.of_to. Qed.

Lemma read_number_digits s :
  (exists c t, s = c :: t /\ ((48 <=? c) && (c <=? 57))%N = true) ->
  Markup.read_number s = Some (Markup.read_digits 0 s).
Proof.
  intros (c & t & -> & Hc). unfold Markup.read_number. now rewrite Hc.
Qed.

Lemma string_of_uint_head d rest :
  d <> Decimal.Nil ->
  exists c t,
    of_string (NilEmpty.string_of_uint d) ++ rest = c :: t
    /\ ((48 <=? c) && (c <=? 57))%N = true.
Proof.
  intros Hd. destruct d; [contradiction|..];
    eexists; eexists; (split; [reflexivity|reflexivity]).
Qed.

(** Reading what [str_of_Z] printed gives the number back. *)
Lemma read_number_str_of_Z z rest :
  0 <= z -> ends_number rest ->
  Markup.read_number (str_of_Z z ++ rest) = Some (z, rest).
Proof.
  intros Hz Hrest. destruct z as [|p|p]; [| |lia].
  - change (str_of_Z 0 ++ rest) with (48%N :: rest).
    unfold Markup.read_number. simpl. now rewrite read_digits_end.
  - unfold str_of_Z. simpl Z.to_int. unfold NilZero.string_of_int.
    pose proof (uint_value_to_uint p) as Hv.
    assert (Hd : Pos.to_uint p <> Decimal.Nil).
    { intros E. rewrite E in Hv. simpl in Hv. lia. }
    unfold NilZero.string_of_uint.
    destruct (Pos.to_uint p) as [|d|d|d|d|d|d|d|d|d|d] eqn:E;
      [contradiction|..];
      (rewrite read_number_digits by (apply string_of_uint_head; discriminate);
       rewrite read_digits_uint by assumption; now rewrite Hv).
Qed.

Lemma read_box_text x1 y1 x2 y2 :
  0 <= x1 -> 0 <= y1 -> 0 <= x2 -> 0 <= y2 ->
  read_box (box_text x1 y1 x2 y2) = Some (x1, y1, x2, y2).
Proof.
  intros H1 H2 H3 H4. unfold read_box, box_text.
  rewrite read_number_str_of_Z by (assumption || reflexivity). simpl.
  rewrite read_number_str_of_Z by (assumption || reflexivity). simpl.
  rewrite read_number_str_of_Z by (assumption || reflexivity). simpl.
  rewrite <- (app_nil_r (str_of_Z y2)).
  rewrite read_number_str_of_Z by (assumption || exact I). reflexivity.
Qed.

Lemma get_bbox_corner_box (bounding_box : BoundingBox) :
  _get_bbox bounding_box
  = (let '(x1, y1, x2, y2) := corner_box bounding_box in box_text x1 y1 x2 y2).
Proof.
  destruct bounding_box as [[vs|]]; [|reflexivity].
  destruct vs as [|v0 [|v1 [|v2 [|v3 rest]]]]; try reflexivity.
  now rewrite (get_bbox_four (mkBox (Some (v0 :: v1 :: v2 :: v3 :: rest)))
                             _ _ _ _ _ eq_refl).
Qed.

Lemma corner_box_nonneg (bounding_box : BoundingBox) :
  let '(x1, y1, x2, y2) := corner_box bounding_box in
  0 <= x1 /\ 0 <= y1 /\ 0 <= x2 /\ 0 <= y2.
Proof.
  unfold corner_box.
  destruct (default [] (vertices bounding_box)) as [|v0 [|v1 [|v2 [|v3 rest]]]];
    try (repeat split; lia).
  repeat split; apply coordinate_nonneg.
Qed.

Lemma read_box_get_bbox (bounding_box : BoundingBox) :
  read_box (_get_bbox bounding_box) = Some (corner_box bounding_box).
Proof.
  rewrite get_bbox_corner_box.
  pose proof (corner_box_nonneg bounding_box) as H.
  destruct (corner_box bounding_box) as [[[x1 y1] x2] y2].
  destruct H as (H1 & H2 & H3 & H4). now apply read_box_text.
Qed.

(** X9. The text that [_get_bbox] prints reads back as four numbers:
    the clamped coordinates of the first and the third corner, or four
    zeros for fewer than four corners. *)
Theorem get_bbox_reads_back (bounding_box : BoundingBox) :
  read_box (_get_bbox bounding_box) = Some (corner_box bounding_box).
Proof. apply read_box_get_bbox. Qed.

(** X14. Two bounding boxes print the same text exactly when their
    clamped first and third corners agree: the text loses nothing of
    what it shows, and shows nothing else. *)
Theorem get_bbox_equal_iff (a b : BoundingBox) :
  _get_bbox a = _get_bbox b <-> corner_box a = corner_box b.
Proof.
  split; intros H.
  - pose proof (read_box_get_bbox a) as Ha. rewrite H, read_box_get_bbox in Ha.
    congruence.
  - now rewrite !get_bbox_corner_box, H.
Qed.

Lemma join_header width height rest :
  rest <> [] ->
  join newline (header width height ++ rest)
  = page_prefix ++ str_of_Z width ++ sp ++ str_of_Z height
    ++ lit "; ppageno 0'>" ++ newline ++ join newline rest.
Proof.
  intros Hrest. destruct rest as [|l rest]; [contradiction|].
  unfold header, page_prefix.
  cbn [join app].
  repeat (rewrite <- app_assoc; cbn [app]). reflexivity.
Qed.

Lemma page_box_prefix s :
  Markup.page_box (page_prefix ++ s)
  = ('(x2, s) ← Markup.read_number s; s ← Markup.read_space s;
     '(y2, _) ← Markup.read_number s;
     Some (0, 0, x2, y2)).
Proof. reflexivity. Qed.

(** X10. The page container of the markup carries the page size: read
    back from the document, its box is [0 0 width height]. *)
Theorem page_box_is_page_size
        F (ops : PyFloat F) (page : Page F) (width height : Z) (doc : pystr) :
  0 <= width -> 0 <= height ->
  _generate_hocr page width height = Ok doc ->
  Markup.page_box doc = Some (0, 0, width, height).
Proof.
  intros Hw Hh H. unfold _generate_hocr in H.
  destruct (hocr_lines page width height) as [ls|e] eqn:E; [|discriminate].
  simpl in H. injection H as <-.
  apply hocr_lines_nodes in E. subst ls.
  rewrite join_header by (destruct (List.map render _); discriminate).
  rewrite page_box_prefix.
  rewrite read_number_str_of_Z by (assumption || reflexivity). simpl.
  rewrite read_number_str_of_Z by (assumption || reflexivity). reflexivity.
Qed.

Section RunPlanFacts.

Context {F : Type} {ops : PyFloat F}.

Lemma world_eta (w : world F) :
  mkWorld (environ w) (files w) (service w) (sent w) = w.
Proof. now destruct w. Qed.

Lemma run_missing_file input_file output_hocr output_text (w : world F) api_key :
  environ w !! api_key_var = Some api_key ->
  is_empty api_key = false ->
  files w !! input_file = None ->
  generate_hocr input_file output_hocr output_text w = (w, Raise OSError).
Proof.
  intros Hkey Hne Hfile.
  unfold generate_hocr, bindM at 1, getenv. cbv beta iota. rewrite Hkey, Hne.
  unfold bindM at 1, read_bytes. cbv beta iota. now rewrite Hfile.
Qed.

(** A run is its plan, applied to the world it starts in. *)
Lemma generate_hocr_plan input_file output_hocr output_text (w : world F) :
  generate_hocr input_file output_hocr output_text w
  = apply_plan w (run_plan (environ w !! api_key_var) (files w !! input_file)
                           (service w) output_hocr output_text).
Proof.
  unfold run_plan.
  destruct (environ w !! api_key_var) as [api_key|] eqn:Hkey.
  2:{ rewrite run_falsy_key by now left.
      unfold apply_plan. simpl. now rewrite app_nil_r, world_eta. }
  destruct (is_empty api_key) eqn:Hne.
  { apply is_empty_true in Hne. subst api_key.
    rewrite run_falsy_key by now right.
    unfold apply_plan. simpl. now rewrite app_nil_r, world_eta. }
  destruct (files w !! input_file) as [bytes|] eqn:Hfile.
  2:{ rewrite (run_missing_file _ _ _ _ _ Hkey Hne Hfile).
      unfold apply_plan. simpl. now rewrite app_nil_r, world_eta. }
  assert (Hr : reaches_service w input_file api_key bytes) by now repeat split.
  unfold after_reply.
  destruct (service w (the_request api_key bytes)) as [|status body] eqn:Hs.
  { rewrite (run_to_reply _ _ _ _ _ _ Hr), Hs. reflexivity. }
  destruct ((400 <=? status) && (status <? 600)) eqn:Hst.
  { rewrite (run_http_error _ _ _ _ _ _ _ body Hr Hs); [reflexivity|].
    unfold success_status. congruence. }
  destruct body as [result|].
  2:{ rewrite (run_to_reply _ _ _ _ _ _ Hr), Hs.
      unfold bindM at 1, raise_for_status. rewrite Hst. reflexivity. }
  rewrite (run_to_annotation _ _ _ _ _ _ _ _ Hr Hs Hst).
  destruct (first_annotation result) as [annotation|]; [|reflexivity].
  destruct (ann_error annotation) as [error|]; [reflexivity|].
  destruct (pages_of annotation) as [|page pages]; [reflexivity|].
  cbv zeta.
  destruct (_generate_hocr page _ _); reflexivity.
Qed.

Lemma write_all_lookup writes : forall (fs : gmap string (list N)) path,
  write_all writes fs !! path
  = match last_write path writes with
    | Some c => Some c
    | None => fs !! path
    end.
Proof.
  induction writes as [|[p c] writes IH]; intros fs path; [reflexivity|].
  unfold write_all in *. simpl fold_left. rewrite IH. simpl.
  destruct (last_write path writes); [reflexivity|].
  destruct (decide (p = path)) as [->|Hne].
  - apply lookup_insert_eq.
  - now apply lookup_insert_ne.
Qed.


(** A run writes to its two output paths only. *)
Lemma after_reply_paths (reply : http_reply F) output_hocr output_text path :
  path <> output_hocr -> path <> output_text ->
  last_write path (after_reply reply output_hocr output_text).1 = None.
Proof.
  intros Hh Ht. unfold after_reply.
  destruct reply as [|status body]; [reflexivity|].
  destruct ((400 <=? status) && (status <? 600)); [reflexivity|].
  destruct body as [result|]; [|reflexivity].
  destruct (first_annotation result) as [annotation|]; [|reflexivity].
  destruct (ann_error annotation); [reflexivity|].
  destruct (pages_of annotation) as [|page pages]; cbv zeta;
    [|destruct (_generate_hocr page _ _)]; simpl;
    repeat (destruct (decide _); try congruence).
Qed.

Lemma run_plan_paths api_key image (svc : request -> http_reply F)
      output_hocr output_text path :
  path <> output_hocr -> path <> output_text ->
  last_write path (plan_writes (run_plan api_key image svc output_hocr output_text))
  = None.
Proof.
  intros Hh Ht. unfold run_plan.
  destruct api_key as [k|]; [|reflexivity].
  destruct (is_empty k); [reflexivity|].
  destruct image as [bytes|]; [|reflexivity].
  pose proof (after_reply_paths (svc (the_request k bytes)) _ _ _ Hh Ht) as H.
  destruct (after_reply _ _ _) as [writes r]. exact H.
Qed.

End RunPlanFacts.

Section RunFacts.

Context {F : Type} {ops : PyFloat F}.

Lemma run_plan_requests api_key image (svc : request -> http_reply F)
      output_hocr output_text :
  plan_requests (run_plan api_key image svc output_hocr output_text) = []
  \/ exists key bytes,
      api_key = Some key /\ image = Some bytes
      /\ plan_requests (run_plan api_key image svc output_hocr output_text)
         = [the_request key bytes].
Proof.
  unfold run_plan.
  destruct api_key as [k|]; [|now left].
  destruct (is_empty k); [now left|].
  destruct image as [bytes|]; [|now left].
  right. exists k, bytes. destruct (after_reply _ _ _). now repeat split.
Qed.

(** A plan that ends well has posted its request and written both files. *)
Lemma run_plan_ok api_key image (svc : request -> http_reply F)
      output_hocr output_text :
  plan_result (run_plan api_key image svc output_hocr output_text) = Ok tt ->
  (exists key bytes,
      api_key = Some key /\ image = Some bytes
      /\ plan_requests (run_plan api_key image svc output_hocr output_text)
         = [the_request key bytes])
  /\ is_Some (last_write output_hocr
                (plan_writes (run_plan api_key image svc output_hocr output_text)))
  /\ is_Some (last_write output_text
                (plan_writes (run_plan api_key image svc output_hocr output_text))).
Proof.
  unfold run_plan.
  destruct api_key as [k|]; [|discriminate].
  destruct (is_empty k); [discriminate|].
  destruct image as [bytes|]; [|discriminate].
  unfold after_reply.
  destruct (svc (the_request k bytes)) as [|status body]; [discriminate|].
  destruct ((400 <=? status) && (status <? 600)); [discriminate|].
  destruct body as [result|]; [|discriminate].
  destruct (first_annotation result) as [annotation|]; [|discriminate].
  destruct (ann_error annotation); [discriminate|].
  destruct (pages_of annotation) as [|page pages]; cbv zeta;
    [|destruct (_generate_hocr page _ _); [|discriminate]];
    intros _; (split; [exists k, bytes; now repeat split|]); simpl;
    repeat (destruct (decide _); try congruence); split; eauto.
Qed.

End RunFacts.

(** X1. Whatever a run does and however it ends, it leaves the
    environment and the service as they were, posts at most one request
    (the one built from the credential and the bytes of the input file),
    and changes no file other than its two output paths. *)
Theorem run_touches_outputs_only
        F (ops : PyFloat F) (w : world F)
        (input_file output_hocr output_text : string) :
  let w' := (generate_hocr input_file output_hocr output_text w).1 in
  environ w' = environ w
  /\ service w' = service w
  /\ (sent w' = sent w
      \/ exists api_key bytes,
          environ w !! api_key_var = Some api_key
          /\ files w !! input_file = Some bytes
          /\ sent w' = sent w ++ [the_request api_key bytes])
  /\ (forall path,
         path <> output_hocr -> path <> output_text ->
         files w' !! path = files w !! path).
Proof.
  cbv zeta. rewrite generate_hocr_plan. unfold apply_plan. simpl.
  split; [reflexivity|]. split; [reflexivity|]. split.
  - destruct (run_plan_requests (environ w !! api_key_var) (files w !! input_file)
                (service w) output_hocr output_text) as [H|(k & b & Hk & Hb & H)].
    + left. rewrite H. apply app_nil_r.
    + right. exists k, b. rewrite H. now repeat split.
  - intros path Hh Ht. rewrite write_all_lookup.
    now rewrite (run_plan_paths _ _ _ _ _ _ Hh Ht).
Qed.

(** X2. A run that returns has posted exactly one request and has
    written both the markup file and the text file. *)
Theorem run_success_writes_both
        F (ops : PyFloat F) (w : world F)
        (input_file output_hocr output_text : string) :
  (generate_hocr input_file output_hocr output_text w).2 = Ok tt ->
  let w' := (generate_hocr input_file output_hocr output_text w).1 in
  (exists api_key bytes,
      environ w !! api_key_var = Some api_key
      /\ files w !! input_file = Some bytes
      /\ sent w' = sent w ++ [the_request api_key bytes])
  /\ is_Some (files w' !! output_hocr)
  /\ is_Some (files w' !! output_text).
Proof.
  cbv zeta. rewrite generate_hocr_plan. unfold apply_plan. simpl. intros H.
  destruct (run_plan_ok _ _ _ _ _ H) as ((k & b & Hk & Hb & Hreq) & Hh & Ht).
  split; [exists k, b; rewrite Hreq; now repeat split|].
  rewrite !write_all_lookup.
  destruct Hh as [c Hh], Ht as [c' Ht]. rewrite Hh, Ht. split; eauto.
Qed.




(** X11. When the first entry of the reply has pages, the run writes the
    service's text verbatim to the text path and then the markup of the
    first page, sized by the page's own width and height (1 where the
    page has none), to the markup path; the pages after the first are
    never looked at.  If the transcoder raises, the text file has been
    written and the markup file has not. *)
Theorem run_transcodes_first_page
        F (ops : PyFloat F) (w : world F)
        (input_file output_hocr output_text : string)
        api_key bytes status result annotation page rest :
  reaches_service w input_file api_key bytes ->
  service w (the_request api_key bytes) = Reply status (Some result) ->
  success_status status ->
  first_annotation result = Some annotation ->
  ann_error annotation = None ->
  pages_of annotation = page :: rest ->
  let text :=
    default [] (fta_text (default empty_full_text
                                  (ann_fullTextAnnotation annotation))) in
  let w1 := written (posted w (the_request api_key bytes)) output_text text in
  generate_hocr input_file output_hocr output_text w
  = match _generate_hocr page (default 1 (page_width page))
                          (default 1 (page_height page)) with
    | Ok hocr => (written w1 output_hocr hocr, Ok tt)
    | Raise e => (w1, Raise e)
    end.
Proof.
  intros Hr Hs Hst Ha He Hp. cbv zeta.
  now rewrite (run_to_annotation _ _ _ _ _ _ _ _ Hr Hs Hst), Ha, He, Hp.
Qed.

Lemma run_transcodes_first_page_witness :
  generate_hocr "page.png" "page.hocr" "page.txt"
                (Worlds.world_of (Some Worlds.secret) MoreWorlds.nan_reply)
  = (written (posted (Worlds.world_of (Some Worlds.secret) MoreWorlds.nan_reply)
                     (the_request Worlds.secret Worlds.png))
             "page.txt" (of_string "x"),
     Raise ValueError).
Proof.
  apply (run_transcodes_first_page
           float binary64 (Worlds.world_of (Some Worlds.secret) MoreWorlds.nan_reply)
           "page.png" "page.hocr" "page.txt" Worlds.secret Worlds.png 200
           (mkResult (Some [mkAnnotation None
              (Some (mkFullText (Some [MoreWorlds.nan_page])
                                (Some (of_string "x"))))]))
           (mkAnnotation None
              (Some (mkFullText (Some [MoreWorlds.nan_page])
                                (Some (of_string "x")))))
           MoreWorlds.nan_page []).
  - apply worlds_reach_service.
  - reflexivity.
  - reflexivity.
  - reflexivity.
  - reflexivity.
  - reflexivity.
Defined.

Lemma run_success_writes_both_witness :
  (exists api_key bytes,
      environ (Worlds.world_of (Some Worlds.secret) MoreWorlds.two_pages)
        !! api_key_var = Some api_key
      /\ files (Worlds.world_of (Some Worlds.secret) MoreWorlds.two_pages)
           !! "page.png"%string = Some bytes
      /\ sent (generate_hocr "page.png" "page.hocr" "page.txt"
                 (Worlds.world_of (Some Worlds.secret) MoreWorlds.two_pages)).1
         = sent (Worlds.world_of (Some Worlds.secret) MoreWorlds.two_pages)
           ++ [the_request api_key bytes])
  /\ is_Some (files (generate_hocr "page.png" "page.hocr" "page.txt"
                       (Worlds.world_of (Some Worlds.secret) MoreWorlds.two_pages)).1
                !! "page.hocr"%string)
  /\ is_Some (files (generate_hocr "page.png" "page.hocr" "page.txt"
                       (Worlds.world_of (Some Worlds.secret) MoreWorlds.two_pages)).1
                !! "page.txt"%string).
Proof.
  apply (run_success_writes_both float binary64
           (Worlds.world_of (Some Worlds.secret) MoreWorlds.two_pages)
           "page.png" "page.hocr" "page.txt").
  vm_compute. reflexivity.
Defined.


Lemma page_box_is_page_size_witness :
  Markup.page_box
    (join newline
       (header 200 100 ++
        [ lit "    <div class='ocr_carea' id='block_1' title='bbox 0 0 110 10'>";
          lit "      <p class='ocr_par' id='par_1' title='bbox 0 0 110 10'>";
          lit "        <span class='ocr_line' id='line_1' title='bbox 0 0 110 10'>";
          lit "          <span class='ocrx_word' id='word_1' title='bbox 0 0 50 10; x_wconf 90'>Hello</span>";
          lit "          <span class='ocrx_word' id='word_2' title='bbox 60 0 110 10; x_wconf 90'>World</span>";
          lit "        </span>";
          lit "      </p>";
          lit "    </div>" ] ++ footer))
  = Some (0, 0, 200, 100).
Proof.
  apply (page_box_is_page_size float binary64 Examples.hello_world 200 100);
    [lia|lia|vm_compute; reflexivity].
Defined.

Section FirstRaiseFacts.

Context {F : Type} {ops : PyFloat F}.

Lemma first_raise_app (ws1 ws2 : list (Word F)) :
  first_raise (ws1 ++ ws2)
  = match first_raise ws1 with
    | Some e => Some e
    | None => first_raise ws2
    end.
Proof.
  induction ws1 as [|w ws1 IH]; [reflexivity|]. simpl.
  destruct (visible w); [|exact IH].
  destruct (_get_confidence w); [exact IH|reflexivity].
Qed.

Lemma first_raise_none (ws : list (Word F)) :
  first_raise ws = None -> confident ws.
Proof.
  induction ws as [|w ws IH]; intros H; [intros w' []|].
  simpl in H. intros w' [<-|Hin] V.
  - rewrite V in H. destruct (_get_confidence w) as [c|e]; [now exists c|discriminate].
  - apply IH; [|assumption|assumption].
    destruct (visible w); [|exact H].
    destruct (_get_confidence w); [exact H|discriminate].
Qed.

Lemma word_loop_first_raise (ws : list (Word F)) e :
  first_raise ws = Some e -> forall st, for_each ws word_body st = Raise e.
Proof.
  induction ws as [|w ws IH]; intros H st; [discriminate|].
  simpl in H. simpl for_each.
  destruct (visible w) eqn:V.
  - rewrite (word_body_visible st w V).
    destruct (_get_confidence w) as [c|e']; simpl.
    + now apply IH.
    + congruence.
  - rewrite (word_body_blank st w (proj1 (visible_false w) V)). simpl.
    now apply IH.
Qed.

Lemma paragraph_loop_first_raise (ps : list (Paragraph F)) e :
  first_raise (flat_map words_of ps) = Some e ->
  forall st, for_each ps paragraph_body st = Raise e.
Proof.
  induction ps as [|p ps IH]; intros H st; [discriminate|].
  simpl in H. rewrite first_raise_app in H. simpl for_each.
  unfold paragraph_body at 1. fold (words_of p).
  destruct (first_raise (words_of p)) as [e'|] eqn:E.
  - injection H as ->. now rewrite (word_loop_first_raise _ _ E).
  - rewrite (word_loop _ _ (first_raise_none _ E)). simpl. now apply IH.
Qed.

Lemma block_loop_first_raise (bs : list (Block F)) e :
  first_raise (flat_map block_words bs) = Some e ->
  forall st, for_each bs block_body st = Raise e.
Proof.
  induction bs as [|b bs IH]; intros H st; [discriminate|].
  simpl in H. rewrite first_raise_app in H. simpl for_each.
  unfold block_body at 1. fold (paragraphs_of b).
  destruct (first_raise (block_words b)) as [e'|] eqn:E.
  - injection H as ->. now rewrite (paragraph_loop_first_raise _ _ E).
  - rewrite (paragraph_loop _ _ (first_raise_none _ E)). simpl. now apply IH.
Qed.

End FirstRaiseFacts.

(** X12. When [int] raises on the confidence of a visible word, the
    transcoder raises the exception of the first such word in the order
    of the document, whatever comes after it; words without visible
    text are skipped before their confidence is looked at. *)
Theorem transcoder_raises_first_failure
        F (ops : PyFloat F) (page : Page F) (width height : Z) (e : exn) :
  first_raise (page_words page) = Some e ->
  _generate_hocr page width height = Raise e.
Proof.
  intros H. unfold _generate_hocr, hocr_lines. fold (blocks_of page).
  now rewrite (block_loop_first_raise _ _ H).
Qed.

Lemma transcoder_raises_first_failure_witness :
  _generate_hocr FailingPages.inf_then_nan 1 1 = Raise OverflowError.
Proof.
  apply (transcoder_raises_first_failure float binary64).
  vm_compute. reflexivity.
Defined.

(** X3. The failures that come before the reply is decoded write no
    file: a missing input file raises before anything is posted, and a
    request without reply or a reply whose body is not JSON raises after
    the one post, with the file system as it was. *)
Theorem run_fails_before_writing
        F (ops : PyFloat F) (w : world F)
        (input_file output_hocr output_text : string) :
  (forall api_key,
      environ w !! api_key_var = Some api_key ->
      is_empty api_key = false ->
      files w !! input_file = None ->
      generate_hocr input_file output_hocr output_text w = (w, Raise OSError))
  /\ (forall api_key bytes,
         reaches_service w input_file api_key bytes ->
         service w (the_request api_key bytes) = NoReply ->
         generate_hocr input_file output_hocr output_text w
         = (posted w (the_request api_key bytes), Raise RequestException)
         /\ files (posted w (the_request api_key bytes)) = files w)
  /\ (forall api_key bytes status,
         reaches_service w input_file api_key bytes ->
         service w (the_request api_key bytes) = Reply status None ->
         success_status status ->
         generate_hocr input_file output_hocr output_text w
         = (posted w (the_request api_key bytes), Raise JSONDecodeError)
         /\ files (posted w (the_request api_key bytes)) = files w).
Proof.
  split; [|split].
  - intros api_key Hkey Hne Hfile. now apply (run_missing_file _ _ _ _ api_key).
  - intros api_key bytes Hr Hs. split; [|reflexivity].
    now rewrite (run_to_reply _ _ _ _ _ _ Hr), Hs.
  - intros api_key bytes status Hr Hs Hst. split; [|reflexivity].
    rewrite (run_to_reply _ _ _ _ _ _ Hr), Hs.
    unfold success_status in Hst.
    unfold bindM at 1, raise_for_status. now rewrite Hst.
Qed.

Lemma run_fails_before_writing_witness :
  generate_hocr "scan.png" "page.hocr" "page.txt"
                (Worlds.world_of (Some Worlds.secret) Worlds.no_text)
  = (Worlds.world_of (Some Worlds.secret) Worlds.no_text, Raise OSError)
  /\ generate_hocr "page.png" "page.hocr" "page.txt"
                   (Worlds.world_of (Some Worlds.secret) NoReply)
     = (posted (Worlds.world_of (Some Worlds.secret) NoReply)
               (the_request Worlds.secret Worlds.png),
        Raise RequestException)
  /\ generate_hocr "page.png" "page.hocr" "page.txt"
                   (Worlds.world_of (Some Worlds.secret) (Reply 200 None))
     = (posted (Worlds.world_of (Some Worlds.secret) (Reply 200 None))
               (the_request Worlds.secret Worlds.png),
        Raise JSONDecodeError).
Proof.
  split; [|split].
  - apply (proj1 (run_fails_before_writing float binary64
                    (Worlds.world_of (Some Worlds.secret) Worlds.no_text)
                    "scan.png" "page.hocr" "page.txt") Worlds.secret);
      reflexivity.
  - apply (proj1 (proj2 (run_fails_before_writing float binary64
                           (Worlds.world_of (Some Worlds.secret) NoReply)
                           "page.png" "page.hocr" "page.txt"))
                 Worlds.secret Worlds.png
                 (worlds_reach_service NoReply) eq_refl).
  - apply (proj1 (proj2 (proj2 (run_fails_before_writing float binary64
                           (Worlds.world_of (Some Worlds.secret) (Reply 200 None))
                           "page.png" "page.hocr" "page.txt"))
                 Worlds.secret Worlds.png 200
                 (worlds_reach_service (Reply 200 None)) eq_refl eq_refl)).
Defined.
